(** * CC1101 driver: bus transactions, register codecs, converters, packets

    A shallow embedding of [cc1101/__init__.py].

    - Python integers are [Z]; [|], [&], [~], [<<], [>>] are [Z.lor],
      [Z.land], [Z.lnot], [Z.shiftl], [Z.shiftr].
    - Python lists of integers and [bytes] are [list Z].
    - Methods that talk to the chip live in a state-and-exception monad over
      a [World]: the state of whatever sits behind [spidev.SpiDev.xfer], and
      the list of requests handed to [xfer] so far.
    - Python floats are modelled by exact rationals ([Q]) and float
      operations by exact ones: rounding error is not modelled.  See the
      section on floats for [math.log2], [math.floor] and [round].
    - Calls to the logger have no effect on control flow and are left out. *)

From Stdlib Require Import ZArith QArith Qpower Qround Qabs.
From Stdlib Require Import List Bool Ascii String.
From Stdlib Require Import Lia Lqa.
Import ListNotations.
Local Open Scope Z_scope.

(** ** Binary literals *)

(** [bin "0110"] is the integer the Python literal [0b0110] denotes. *)
Fixpoint bin_from (acc : Z) (digits : string) : Z :=
  match digits with
  | EmptyString => acc
  | String c rest =>
      bin_from (2 * acc + (if Ascii.eqb c "1"%char then 1 else 0)) rest
  end.

Definition bin (digits : string) : Z := bin_from 0 digits.

(** ** Exceptions and results *)

(** The exception classes the driver raises. [ValueError] and [Exception]
    carry the leading words of the message of their raise site. *)
Inductive exn : Type :=
| AssertionError
| ValueError (message : string)
| OverflowError (message : string)
| Exception (message : string).

Inductive result (A : Type) : Type :=
| Ok (value : A)
| Raise (e : exn).
Arguments Ok {A} value.
Arguments Raise {A} e.

(** ** The world behind the SPI bus *)

Record World (Dev : Type) : Type := mkWorld {
  device : Dev;              (* state of the bus and of the chip behind it *)
  sent : list (list Z)       (* every request passed to xfer, oldest first *)
}.
Arguments mkWorld {Dev} device sent.
Arguments device {Dev} w.
Arguments sent {Dev} w.

Definition M (Dev A : Type) : Type := World Dev -> result A * World Dev.

Definition ret {Dev A} (a : A) : M Dev A := fun w => (Ok a, w).

Definition raise {Dev A} (e : exn) : M Dev A := fun w => (Raise e, w).

Definition bind {Dev A B} (c : M Dev A) (k : A -> M Dev B) : M Dev B :=
  fun w =>
    match c w with
    | (Ok a, w') => k a w'
    | (Raise e, w') => (Raise e, w')
    end.

(** [try: c finally: f]: [f] runs whatever the outcome of [c]; an exception
    of [f] replaces the outcome of [c]. *)
Definition try_finally {Dev A} (c : M Dev A) (f : M Dev unit) : M Dev A :=
  fun w =>
    match c w with
    | (r, w') =>
        match f w' with
        | (Ok _, w'') => (r, w'')
        | (Raise e, w'') => (Raise e, w'')
        end
    end.

(** A result computed without the bus. *)
Definition lift {Dev A} (r : result A) : M Dev A := fun w => (r, w).

(** The [assert] statement. *)
Definition assert {Dev} (b : bool) : M Dev unit :=
  if b then ret tt else raise AssertionError.

Declare Scope py_scope.
Delimit Scope py_scope with py.
Notation "x <- c ;; k" := (bind c (fun x => k))
  (at level 61, c at next level, right associativity) : py_scope.
Notation "c ;; k" := (bind c (fun _ => k))
  (at level 61, right associativity) : py_scope.
Local Open Scope py_scope.

(** ** Constants that live outside this file's source *)

(** [cc1101.addresses] is imported by the driver but is not among the
    sources at hand; every address the modelled methods use is a parameter. *)
Class Addresses : Type := {
  (* StrobeAddress *)
  SRX : Z; STX : Z; SIDLE : Z; SFTX : Z;
  (* ConfigurationRegisterAddress *)
  PKTLEN : Z; PKTCTRL0 : Z;
  MDMCFG4 : Z; MDMCFG2 : Z; MDMCFG1 : Z; FREND0 : Z;
  (* StatusRegisterAddress *)
  MARCSTATE : Z; RXBYTES : Z;
  (* FIFORegisterAddress *)
  TX : Z; RX : Z
}.

(** [cc1101.options.PacketLengthMode] is an [enum.IntEnum] that is not among
    the sources either: its member values, and the two members [transmit]
    compares with, are parameters. *)
Class Options : Type := {
  PacketLengthMode_values : list Z;
  FIXED : Z;
  VARIABLE : Z
}.

(** ** Enumerations defined in the driver *)

Inductive _TransceiveMode : Type :=
| FIFO | SYNCHRONOUS_SERIAL | RANDOM_TRANSMISSION | ASYNCHRONOUS_SERIAL.

Definition _TransceiveMode_value (m : _TransceiveMode) : Z :=
  match m with
  | FIFO => 0
  | SYNCHRONOUS_SERIAL => 1
  | RANDOM_TRANSMISSION => 2
  | ASYNCHRONOUS_SERIAL => 3
  end.

Inductive MainRadioControlStateMachineState : Type :=
| IDLE | STARTCAL | BWBOOST | FS_LOCK | RX_STATE | RXFIFO_OVERFLOW | TX_STATE.

Definition MainRadioControlStateMachineState_value
    (s : MainRadioControlStateMachineState) : Z :=
  match s with
  | IDLE => 0x01
  | STARTCAL => 0x08
  | BWBOOST => 0x09
  | FS_LOCK => 0x0A
  | RX_STATE => 0x0D
  | RXFIFO_OVERFLOW => 0x11
  | TX_STATE => 0x13
  end.

(** Calling the enumeration class on an integer: the member with that value,
    if there is one. *)
Definition MainRadioControlStateMachineState_of (v : Z)
    : option MainRadioControlStateMachineState :=
  if v =? 0x01 then Some IDLE
  else if v =? 0x08 then Some STARTCAL
  else if v =? 0x09 then Some BWBOOST
  else if v =? 0x0A then Some FS_LOCK
  else if v =? 0x0D then Some RX_STATE
  else if v =? 0x11 then Some RXFIFO_OVERFLOW
  else if v =? 0x13 then Some TX_STATE
  else None.

Definition MainRadioControlStateMachineState_eqb
    (a b : MainRadioControlStateMachineState) : bool :=
  MainRadioControlStateMachineState_value a
  =? MainRadioControlStateMachineState_value b.

Inductive Pin : Type := GDO0.

(** ** Floats

    A Python float is modelled by the rational it stands for, and float
    arithmetic by exact arithmetic: the rounding of an inexact operation is
    not modelled.  (On the arguments of the round-trip theorems the
    operations are exact: [binary64_symbol_rate_intermediates],
    [binary64_frequency_decode].)

    The converters apply [math.log2] to a positive rational and then only
    multiply by or add a Python integer, take [math.floor], ask
    [is_integer], compare with an integer or convert with [int]: such a real
    number [log2 x * k + j] is kept by its antilogarithm, the positive
    rational [x ^ k * 2 ^ j], on which all of these are decided exactly. *)

Definition Qlt_bool (x y : Q) : bool := negb (Qle_bool y x).

(** The integer [k] with [2 ^ k <= x < 2 ^ (k + 1)], for [0 < x]. *)
Definition Qlog2_floor (x : Q) : Z :=
  let k := Z.log2 (Qnum x) - Z.log2 (Zpos (Qden x)) in
  if Qle_bool (2 ^ k) x then k else k - 1.

(** The real number [log2 antilog]. *)
Record logreal : Type := Log2 { antilog : Q }.

(** [math.log2(x)], for [0 < x] *)
Definition math_log2 (x : Q) : logreal := Log2 x.

Definition logreal_add (r : logreal) (k : Z) : logreal :=
  Log2 (antilog r * 2 ^ k).

(** [math.floor(r)] *)
Definition math_floor (r : logreal) : Z := Qlog2_floor (antilog r).

(** [r.is_integer()]: [log2 x] is an integer exactly when [x] is a power of
    two with an integer exponent. *)
Definition is_integer (r : logreal) : bool :=
  Qeq_bool (antilog r) (2 ^ Qlog2_floor (antilog r)).



(** [round(x)]: to the nearest integer, a tie to the even one. *)
Definition round (x : Q) : Z :=
  let f := Qfloor x in
  match (x - inject_Z f ?= 1 # 2)%Q with
  | Lt => f
  | Gt => f + 1
  | Eq => if Z.even f then f else f + 1
  end.

(** The finite binary64 numbers: a significand below [2 ^ 53] times a power
    of two in the format's range.  Float addition, subtraction,
    multiplication and division return the exact result whenever that is
    such a number. *)
Definition binary64 (x : Q) : Prop :=
  exists n k : Z,
    Z.abs n < 2 ^ 53 /\ -1074 <= k <= 971 /\ (x == inject_Z n * 2 ^ k)%Q.

(** [int.from_bytes(values, byteorder="big", signed=False)], on a list of
    integers *)
Definition int_from_bytes_big (values : list Z) : result Z :=
  if forallb (fun v => (0 <=? v) && (v <? 256)) values then
    Ok (fold_left (fun acc v => acc * 256 + v) values 0)
  else Raise (ValueError "bytes must be in range(0, 256)").

Fixpoint big_endian_digits (length : nat) (n : Z) : list Z :=
  match length with
  | O => []
  | S k => big_endian_digits k (n / 256) ++ [n mod 256]
  end.

(** [n.to_bytes(length=length, byteorder="big", signed=False)] and
    [int.to_bytes(n, length=length, byteorder="big")], as a list *)
Definition int_to_bytes_big (length : nat) (n : Z) : result (list Z) :=
  if n <? 0 then
    Raise (OverflowError "can't convert negative int to unsigned")
  else if 256 ^ Z.of_nat length <=? n then
    Raise (OverflowError "int too big to convert")
  else Ok (big_endian_digits length n).

(** ** Physical quantity converters *)

Definition _CRYSTAL_OSCILLATOR_FREQUENCY_HERTZ : Q := 26e6.

Definition _FREQUENCY_CONTROL_WORD_HERTZ_FACTOR : Q :=
  _CRYSTAL_OSCILLATOR_FREQUENCY_HERTZ / 2 ^ 16.

Definition _symbol_rate_floating_point_to_real (mantissa exponent : Z) : Q :=
  inject_Z (256 + mantissa)
  * 2 ^ exponent
  * _CRYSTAL_OSCILLATOR_FREQUENCY_HERTZ
  / 2 ^ 28.

Definition _symbol_rate_real_to_floating_point (real : Q) : result (Z * Z) :=
  if negb (Qlt_bool 0 real) then Raise AssertionError
  else
    let exponent :=
      math_floor
        (logreal_add
           (math_log2 (real / _CRYSTAL_OSCILLATOR_FREQUENCY_HERTZ)) 20) in
    let mantissa :=
      round (real * 2 ^ 28 / _CRYSTAL_OSCILLATOR_FREQUENCY_HERTZ / 2 ^ exponent
             - 256) in
    let (mantissa, exponent) :=
      if (mantissa =? 256)%Z then (0%Z, (exponent + 1)%Z)
      else (mantissa, exponent) in
    if negb ((0 <? exponent)%Z && (exponent <=? 2 ^ 4)%Z) then
      Raise AssertionError
    else if negb (mantissa <=? 2 ^ 8)%Z then Raise AssertionError
    else Ok (mantissa, exponent).

Definition _frequency_control_word_to_hertz (control_word : list Z)
    : result Q :=
  match int_from_bytes_big control_word with
  | Ok word => Ok (inject_Z word * _FREQUENCY_CONTROL_WORD_HERTZ_FACTOR)%Q
  | Raise e => Raise e
  end.

Definition _hertz_to_frequency_control_word (hertz : Q) : result (list Z) :=
  int_to_bytes_big 3 (round (hertz / _FREQUENCY_CONTROL_WORD_HERTZ_FACTOR)).

(** ** Bus transaction layer *)

Definition _WRITE_SINGLE_BYTE : Z := 0x00.
Definition _WRITE_BURST : Z := 0x40.
Definition _READ_SINGLE_BYTE : Z := 0x80.
Definition _READ_BURST : Z := 0xC0.

Definition len (l : list Z) : Z := Z.of_nat (List.length l).

Section Driver.

Context {Dev : Type}.
(** [self._spi.xfer]: the external bus collaborator. *)
Variable xfer : list Z -> Dev -> list Z * Dev.
Context {addresses : Addresses} {options : Options}.

Definition spi_xfer (request : list Z) : M Dev (list Z) :=
  fun w =>
    let (response, d) := xfer request (device w) in
    (Ok response, mkWorld d (sent w ++ [request])).

Definition _read_single_byte (register : Z) : M Dev Z :=
  response <- spi_xfer [Z.lor register _READ_SINGLE_BYTE; 0] ;;
  assert (len response =? 2) ;;
  ret (nth 1 response 0).

Definition _read_burst (start_register : Z) (length : Z) : M Dev (list Z) :=
  response <- spi_xfer (Z.lor start_register _READ_BURST
                          :: repeat 0 (Z.to_nat length)) ;;
  assert (len response =? length + 1) ;;
  ret (skipn 1 response).

Definition _read_status_register (register : Z) : M Dev Z :=
  response <- spi_xfer [Z.lor register _READ_BURST; 0] ;;
  assert (len response =? 2) ;;
  ret (nth 1 response 0).

Definition _command_strobe (register : Z) : M Dev unit :=
  response <- spi_xfer [Z.lor register _WRITE_SINGLE_BYTE] ;;
  assert (len response =? 1).

Definition _write_burst (start_register : Z) (values : list Z) : M Dev unit :=
  response <- spi_xfer (Z.lor start_register _WRITE_BURST :: values) ;;
  assert (len response =? len values + 1) ;;
  assert (forallb (fun v => v =? nth 0 response 0) (skipn 1 response)).

(** ** Register codec layer *)

(** MDMCFG4.CHANBW_E and MDMCFG4.CHANBW_M *)
Definition _set_filter_bandwidth (mantissa exponent : Z) : M Dev unit :=
  mdmcfg4 <- _read_single_byte MDMCFG4 ;;
  let mdmcfg4 := Z.land mdmcfg4 (bin "00001111") in
  assert ((0 <=? exponent) && (exponent <=? bin "11")) ;;
  let mdmcfg4 := Z.lor mdmcfg4 (Z.shiftl exponent 6) in
  assert ((0 <=? mantissa) && (mantissa <=? bin "11")) ;;
  let mdmcfg4 := Z.lor mdmcfg4 (Z.shiftl mantissa 4) in
  _write_burst MDMCFG4 [mdmcfg4].

(** The argument is the integer value of a [ModulationFormat] member. *)
Definition _set_modulation_format (modulation_format : Z) : M Dev unit :=
  mdmcfg2 <- _read_single_byte MDMCFG2 ;;
  let mdmcfg2 := Z.land mdmcfg2 (Z.lnot (Z.shiftl modulation_format 4)) in
  let mdmcfg2 := Z.lor mdmcfg2 (Z.shiftl modulation_format 4) in
  _write_burst MDMCFG2 [mdmcfg2].

(** MDMCFG2.MANCHESTER_EN *)
Definition enable_manchester_code : M Dev unit :=
  mdmcfg2 <- _read_single_byte MDMCFG2 ;;
  let mdmcfg2 := Z.lor mdmcfg2 (bin "1000") in
  _write_burst MDMCFG2 [mdmcfg2].

(** MDMCFG2.SYNC_MODE; the argument is the integer value of a [SyncMode]
    member. *)
Definition set_sync_mode (mode : Z) : M Dev unit :=
  mdmcfg2 <- _read_single_byte MDMCFG2 ;;
  let mdmcfg2 := Z.land mdmcfg2 (bin "11111100") in
  let mdmcfg2 := Z.lor mdmcfg2 mode in
  _write_burst MDMCFG2 [mdmcfg2].


Definition _set_preamble_length_index (index : Z) : M Dev unit :=
  assert ((0 <=? index) && (index <=? bin "111")) ;;
  mdmcfg1 <- _read_single_byte MDMCFG1 ;;
  let mdmcfg1 := Z.land mdmcfg1 (bin "10001111") in
  let mdmcfg1 := Z.lor mdmcfg1 (Z.shiftl index 4) in
  _write_burst MDMCFG1 [mdmcfg1].


(** FREND0.PA_POWER.  The byte handed to [_write_burst] is [setting_index],
    not the local [frend0]. *)
Definition _set_power_amplifier_setting_index (setting_index : Z)
    : M Dev unit :=
  frend0 <- _read_single_byte FREND0 ;;
  let frend0 := Z.land frend0 (bin "000") in
  let frend0 := Z.lor frend0 setting_index in
  _write_burst FREND0 [setting_index].

(** PKTLEN *)
Definition get_packet_length_bytes : M Dev Z :=
  _read_single_byte PKTLEN.

Definition set_packet_length_bytes (packet_length : Z) : M Dev unit :=
  assert ((1 <=? packet_length) && (packet_length <=? 255)) ;;
  _write_burst PKTLEN [packet_length].

(** PKTCTRL0.WHITE_DATA *)
Definition _disable_data_whitening : M Dev unit :=
  pktctrl0 <- _read_single_byte PKTCTRL0 ;;
  let pktctrl0 := Z.land pktctrl0 (bin "10111111") in
  _write_burst PKTCTRL0 [pktctrl0].

(** PKTCTRL0.CRC_EN *)
Definition disable_checksum : M Dev unit :=
  pktctrl0 <- _read_single_byte PKTCTRL0 ;;
  let pktctrl0 := Z.land pktctrl0 (bin "11111011") in
  _write_burst PKTCTRL0 [pktctrl0].

(** PKTCTRL0.PKT_FORMAT *)
Definition _set_transceive_mode (mode : _TransceiveMode) : M Dev unit :=
  pktctrl0 <- _read_single_byte PKTCTRL0 ;;
  let pktctrl0 := Z.land pktctrl0 (Z.lnot (bin "00110000")) in
  let pktctrl0 := Z.lor pktctrl0 (Z.shiftl (_TransceiveMode_value mode) 4) in
  _write_burst PKTCTRL0 [pktctrl0].

(** [PacketLengthMode(pktctrl0 & 0b11)]: the enumeration rejects an
    integer that is not the value of one of its members.  The result is the
    member's integer value. *)
Definition get_packet_length_mode : M Dev Z :=
  pktctrl0 <- _read_single_byte PKTCTRL0 ;;
  let v := Z.land pktctrl0 (bin "11") in
  if existsb (Z.eqb v) PacketLengthMode_values then ret v
  else raise (ValueError "is not a valid PacketLengthMode").

(** The argument is the integer value of a [PacketLengthMode] member. *)
Definition set_packet_length_mode (mode : Z) : M Dev unit :=
  pktctrl0 <- _read_single_byte PKTCTRL0 ;;
  let pktctrl0 := Z.land pktctrl0 (bin "11111100") in
  let pktctrl0 := Z.lor pktctrl0 mode in
  _write_burst PKTCTRL0 [pktctrl0].

(** ** Device state *)

Definition get_main_radio_control_state_machine_state
    : M Dev MainRadioControlStateMachineState :=
  v <- _read_status_register MARCSTATE ;;
  match MainRadioControlStateMachineState_of v with
  | Some s => ret s
  | None =>
      raise (ValueError "is not a valid MainRadioControlStateMachineState")
  end.

Definition _flush_tx_fifo_buffer : M Dev unit :=
  _command_strobe SFTX.

(** ** Packet transceive protocol *)

Definition transmit (payload : list Z) : M Dev unit :=
  packet_length_mode <- get_packet_length_mode ;;
  packet_length <- get_packet_length_bytes ;;
  payload <-
    (if packet_length_mode =? VARIABLE then
       if len payload =? 0 then raise (ValueError "empty payload")
       else if len payload >? packet_length then
         raise (ValueError "payload exceeds maximum payload length")
       else
         prefix <- lift (int_to_bytes_big 1 (len payload)) ;;
         ret (prefix ++ payload)
     else if (packet_length_mode =? FIXED)
             && negb (len payload =? packet_length) then
       raise (ValueError "expected payload length")
     else ret payload) ;;
  marcstate <- get_main_radio_control_state_machine_state ;;
  if negb (MainRadioControlStateMachineState_eqb marcstate IDLE) then
    raise (Exception "device must be idle before transmission")
  else
    _flush_tx_fifo_buffer ;;
    _write_burst TX payload ;;
    _command_strobe STX.

(** The context manager [asynchronous_transmission], applied to the body of
    its [with] statement.  The generator runs up to its [yield] on entry;
    the body receives the yielded pin; the [finally] block runs when the
    body returns or raises. *)
Definition asynchronous_transmission {A} (body : Pin -> M Dev A) : M Dev A :=
  _set_transceive_mode ASYNCHRONOUS_SERIAL ;;
  _command_strobe STX ;;
  try_finally
    (body GDO0)
    (_command_strobe SIDLE ;;
     _set_transceive_mode FIFO).

Definition _enable_receive_mode : M Dev unit :=
  _command_strobe SRX.

Record _ReceivedPacket : Type := mk_ReceivedPacket {
  data : list Z;
  _rssi_index : Z;
  checksum_valid : bool;
  link_quality_indicator : Z      (* 7bit *)
}.

Definition _ReceivedPacket__init__
    (data : list Z) (rssi_index : Z) (checksum_valid : bool)
    (link_quality_indicator : Z) : M Dev _ReceivedPacket :=
  assert ((0 <=? rssi_index) && (rssi_index <? Z.shiftl 1 8)) ;;
  assert ((0 <=? link_quality_indicator)
          && (link_quality_indicator <? Z.shiftl 1 7)) ;;
  ret (mk_ReceivedPacket data rssi_index checksum_valid
         link_quality_indicator).

(** [bytes(values)] *)
Definition bytes (values : list Z) : M Dev (list Z) :=
  if forallb (fun v => (0 <=? v) && (v <? 256)) values then ret values
  else raise (ValueError "bytes must be in range(0, 256)").

(** [buffer] holds [rxbytes >= 2] items when it is indexed (the assertion
    of [_read_burst]), so the negative indices are in range. *)
Definition _get_received_packet : M Dev (option _ReceivedPacket) :=
  rxbytes <- _read_status_register RXBYTES ;;
  if rxbytes <? 2 then ret None
  else
    buffer <- _read_burst RX rxbytes ;;
    let n := List.length buffer in
    data <- bytes (firstn (n - 2) buffer) ;;
    packet <- _ReceivedPacket__init__
                data
                (nth (n - 2) buffer 0)
                (negb (Z.shiftr (nth (n - 1) buffer 0) 7 =? 0))
                (Z.land (nth (n - 1) buffer 0) (bin "0111111")) ;;
    ret (Some packet).

End Driver.

(** [_ReceivedPacket._RSSI_OFFSET_dB] *)
Definition _RSSI_OFFSET_dB : Q := 74.

(** [_ReceivedPacket.rssi_dbm] *)
Definition rssi_dbm (self : _ReceivedPacket) : Q :=
  if _rssi_index self >=? 128 then
    (inject_Z (_rssi_index self - 256) / 2 - _RSSI_OFFSET_dB)%Q
  else
    (inject_Z (_rssi_index self) / 2 - _RSSI_OFFSET_dB)%Q.

(** ** Running the driver *)

(** What the bus answers to [request] in world [w], and the world after the
    transfer. *)
Definition reply {Dev} (xfer : list Z -> Dev -> list Z * Dev)
    (request : list Z) (w : World Dev) : list Z :=
  fst (xfer request (device w)).

Definition after {Dev} (xfer : list Z -> Dev -> list Z * Dev)
    (request : list Z) (w : World Dev) : World Dev :=
  mkWorld (snd (xfer request (device w))) (sent w ++ [request]).

(** A bus that plays back a script: the next response is the head of the
    script, whatever the request; an exhausted script answers zeros. *)
Definition Script : Type := list (list Z).

Definition scripted (request : list Z) (script : Script) : list Z * Script :=
  match script with
  | [] => (repeat 0 (List.length request), [])
  | response :: rest => (response, rest)
  end.

Definition start (script : Script) : World Script := mkWorld script [].

(** The addresses of the CC1101 data sheet (tables 42 to 44), used to run
    the driver on examples. *)
Definition datasheet : Addresses := {|
  SRX := 0x34; STX := 0x35; SIDLE := 0x36; SFTX := 0x3B;
  PKTLEN := 0x06; PKTCTRL0 := 0x08;
  MDMCFG4 := 0x10; MDMCFG2 := 0x12; MDMCFG1 := 0x13; FREND0 := 0x22;
  MARCSTATE := 0x35; RXBYTES := 0x3B;
  TX := 0x3F; RX := 0x3F
|}.

(** PKTCTRL0.LENGTH_CONFIG of the data sheet: fixed, variable, infinite. *)
Definition length_config : Options := {|
  PacketLengthMode_values := [0; 1; 2];
  FIXED := 0;
  VARIABLE := 1
|}.

(** [same_outside field b b']: [b'] and [b] agree on every bit that is not
    set in the mask [field]. *)
Definition same_outside (field b b' : Z) : Prop :=
  Z.land b' (Z.lnot field) = Z.land b (Z.lnot field).

(** [rewrites xfer c register field]: whenever the register reads as the
    byte [b], running [c] sends, after that read, exactly one burst write
    of one byte [b'] to the register, and [b'] agrees with [b] outside
    [field]. *)
Definition rewrites {Dev} (xfer : list Z -> Dev -> list Z * Dev)
    (c : M Dev unit) (register field : Z) : Prop :=
  forall (w w1 : World Dev) (b : Z),
    0 <= b < 256 ->
    _read_single_byte xfer register w = (Ok b, w1) ->
    exists b',
      sent (snd (c w)) = sent w1 ++ [[Z.lor register 0x40; b']]
      /\ same_outside field b b'.

(** The checks [transmit] makes on the payload before it reads the radio
    state: those of variable mode, of fixed mode, and none in any other
    mode.  In variable mode the length must also fit the one prefix byte. *)
Definition passes_validation `{Options} (mode packet_length : Z)
    (payload : list Z) : Prop :=
  (mode = VARIABLE ->
     payload <> [] /\ len payload <= packet_length /\ len payload <= 255)
  /\ (mode <> VARIABLE -> mode = FIXED -> len payload = packet_length).


(** ** The rest of the driver *)

(** The other addresses of [cc1101.addresses] the driver uses, and the
    member values of [ConfigurationRegisterAddress] (the enumeration is
    called on integers in [get_configuration_register_values]). *)
Class MoreAddresses : Type := {
  (* StrobeAddress *)
  SRES : Z;
  (* ConfigurationRegisterAddress *)
  SYNC1 : Z; FREQ2 : Z; MDMCFG3 : Z; MCSM0 : Z;
  ConfigurationRegisterAddress_values : list Z;
  (* StatusRegisterAddress *)
  PARTNUM : Z; VERSION : Z
}.

(** The other enumerations of [cc1101.options]: member values, and the
    member [__enter__] selects. *)
Class MoreOptions : Type := {
  ModulationFormat_values : list Z;
  ASK_OOK : Z;
  SyncMode_values : list Z
}.

(** Calling [_TransceiveMode] on an integer. *)
Definition _TransceiveMode_of (v : Z) : option _TransceiveMode :=
  if v =? 0 then Some FIFO
  else if v =? 1 then Some SYNCHRONOUS_SERIAL
  else if v =? 2 then Some RANDOM_TRANSMISSION
  else if v =? 3 then Some ASYNCHRONOUS_SERIAL
  else None.

Definition _SUPPORTED_PARTNUM : Z := 0.
Definition _SUPPORTED_VERSION : Z := 0x14.


(** [enumerate(values)], counting from [i] *)
Fixpoint enumerate_from (i : Z) (values : list Z) : list (Z * Z) :=
  match values with
  | [] => []
  | v :: rest => (i, v) :: enumerate_from (i + 1) rest
  end.

Section Session.

Context {Dev : Type}.
Variable xfer : list Z -> Dev -> list Z * Dev.
(** [self._spi.open], the assignment to [self._spi.max_speed_hz] and
    [self._spi.close]: whatever the bus collaborator does. *)
Variable spi_open : Z -> Z -> M Dev unit.
Variable spi_set_max_speed_hz : Z -> M Dev unit.
Variable spi_close : M Dev unit.
Context {addresses : Addresses} {options : Options}.
Context {more_addresses : MoreAddresses} {more_options : MoreOptions}.

(** Calling an [enum.IntEnum] with the given member values on an integer. *)
Definition enum_member (name : string) (values : list Z) (v : Z) : M Dev Z :=
  if existsb (Z.eqb v) values then ret v
  else raise (ValueError name).

Definition _reset : M Dev unit :=
  _command_strobe xfer SRES.


(** MDMCFG4.DRATE_E *)
Definition _get_symbol_rate_exponent : M Dev Z :=
  mdmcfg4 <- _read_single_byte xfer MDMCFG4 ;;
  ret (Z.land mdmcfg4 (bin "00001111")).

Definition _set_symbol_rate_exponent (exponent : Z) : M Dev unit :=
  mdmcfg4 <- _read_single_byte xfer MDMCFG4 ;;
  let mdmcfg4 := Z.land mdmcfg4 (bin "11110000") in
  let mdmcfg4 := Z.lor mdmcfg4 exponent in
  _write_burst xfer MDMCFG4 [mdmcfg4].

(** MDMCFG3.DRATE_M *)
Definition _get_symbol_rate_mantissa : M Dev Z :=
  _read_single_byte xfer MDMCFG3.

Definition _set_symbol_rate_mantissa (mantissa : Z) : M Dev unit :=
  _write_burst xfer MDMCFG3 [mantissa].

Definition get_symbol_rate_baud : M Dev Q :=
  mantissa <- _get_symbol_rate_mantissa ;;
  exponent <- _get_symbol_rate_exponent ;;
  ret (_symbol_rate_floating_point_to_real mantissa exponent).

Definition set_symbol_rate_baud (real : Q) : M Dev unit :=
  pair <- lift (_symbol_rate_real_to_floating_point real) ;;
  let (mantissa, exponent) := pair : Z * Z in
  _set_symbol_rate_mantissa mantissa ;;
  _set_symbol_rate_exponent exponent.


(** The result is the integer value of the [SyncMode] member. *)
Definition get_sync_mode : M Dev Z :=
  mdmcfg2 <- _read_single_byte xfer MDMCFG2 ;;
  enum_member "is not a valid SyncMode" SyncMode_values
    (Z.land mdmcfg2 (bin "11")).

Definition _get_transceive_mode : M Dev _TransceiveMode :=
  pktctrl0 <- _read_single_byte xfer PKTCTRL0 ;;
  match _TransceiveMode_of (Z.land (Z.shiftr pktctrl0 4) (bin "11")) with
  | Some mode => ret mode
  | None => raise (ValueError "is not a valid _TransceiveMode")
  end.

(** alias for [get_main_radio_control_state_machine_state] *)
Definition get_marc_state : M Dev MainRadioControlStateMachineState :=
  get_main_radio_control_state_machine_state xfer.

Definition _get_base_frequency_control_word : M Dev (list Z) :=
  _read_burst xfer FREQ2 3.

Definition _set_base_frequency_control_word (control_word : list Z)
    : M Dev unit :=
  _write_burst xfer FREQ2 control_word.

Definition get_base_frequency_hertz : M Dev Q :=
  control_word <- _get_base_frequency_control_word ;;
  lift (_frequency_control_word_to_hertz control_word).

Definition set_base_frequency_hertz (freq : Q) : M Dev unit :=
  control_word <- lift (_hertz_to_frequency_control_word freq) ;;
  _set_base_frequency_control_word control_word.

(** The dictionary is kept as the list of its items in insertion order;
    its keys are distinct. *)
Fixpoint configuration_register_dict (start_register : Z)
    (items : list (Z * Z)) : M Dev (list (Z * Z)) :=
  match items with
  | [] => ret []
  | (i, v) :: rest =>
      key <- enum_member "is not a valid ConfigurationRegisterAddress"
               ConfigurationRegisterAddress_values (start_register + i) ;;
      dict <- configuration_register_dict start_register rest ;;
      ret ((key, v) :: dict)
  end.

Definition get_configuration_register_values (start_register end_register : Z)
    : M Dev (list (Z * Z)) :=
  assert (start_register <=? end_register) ;;
  values <- _read_burst xfer start_register
              (end_register - start_register + 1) ;;
  configuration_register_dict start_register (enumerate_from 0 values).

(** SYNC1 and SYNC0 *)
Definition get_sync_word : M Dev (list Z) :=
  values <- _read_burst xfer SYNC1 2 ;;
  bytes values.

Definition set_sync_word (sync_word : list Z) : M Dev unit :=
  if negb (len sync_word =? 2) then raise (ValueError "expected two bytes")
  else _write_burst xfer SYNC1 sync_word.

Definition __enter__ : M Dev unit :=
  spi_open 0 0 ;;
  spi_set_max_speed_hz 55700 ;;
  _reset ;;
  partnum <- _read_status_register xfer PARTNUM ;;
  if negb (partnum =? _SUPPORTED_PARTNUM) then
    raise (ValueError "unexpected chip part number")
  else
    version <- _read_status_register xfer VERSION ;;
    if negb (version =? _SUPPORTED_VERSION) then
      raise (ValueError "unexpected chip version number")
    else
      _set_modulation_format xfer ASK_OOK ;;
      _set_power_amplifier_setting_index xfer 1 ;;
      _disable_data_whitening xfer ;;
      _write_burst xfer MCSM0 [bin "010100"] ;;
      marcstate <- get_main_radio_control_state_machine_state xfer ;;
      if negb (MainRadioControlStateMachineState_eqb marcstate IDLE) then
        raise (ValueError "expected marcstate idle")
      else ret tt.

Definition __exit__ : M Dev bool :=
  spi_close ;;
  ret false.

(** [with CC1101() as transceiver: body]: [__exit__] returns [False], so
    an exception of the body propagates once the bus is closed. *)
Definition with_CC1101 {A} (body : M Dev A) : M Dev A :=
  __enter__ ;;
  try_finally body (__exit__ ;; ret tt).

End Session.

(** More of the data sheet, for running examples: the configuration
    registers are 0x00 to 0x2E. *)
Definition more_datasheet : MoreAddresses := {|
  SRES := 0x30;
  SYNC1 := 0x04; FREQ2 := 0x0D; MDMCFG3 := 0x11; MCSM0 := 0x18;
  ConfigurationRegisterAddress_values := map Z.of_nat (seq 0 0x2F);
  PARTNUM := 0x30; VERSION := 0x31
|}.

(** MDMCFG2.MOD_FORMAT and the two-bit sync modes of the data sheet. *)
Definition more_options_example : MoreOptions := {|
  ModulationFormat_values := [0; 1; 3; 4; 7];
  ASK_OOK := 3;
  SyncMode_values := [0; 1; 2; 3]
|}.

(** The value of a byte read as a signed 8-bit integer. *)
Definition signed_byte (b : Z) : Z := if b >=? 128 then b - 256 else b.

(** * Theorems *)

(** ** Floats *)

Lemma between_powers (n d a b : Z) :
  0 < n -> 0 < d ->
  2 ^ a <= n < 2 ^ (a + 1) -> 2 ^ b <= d < 2 ^ (b + 1) -> 0 <= a -> 0 <= b ->
  (2 ^ (a - b - 1) < inject_Z n / inject_Z d
   /\ inject_Z n / inject_Z d < 2 ^ (a - b + 1))%Q.
Proof.
  intros Hn Hd Ha Hb Ha0 Hb0.
  assert (HD : (0 < inject_Z d)%Q) by (rewrite <- (Zlt_Qlt 0); exact Hd).
  assert (HB : (0 < inject_Z (2 ^ b))%Q) by (rewrite <- (Zlt_Qlt 0); lia).
  assert (HB1 : (0 < inject_Z (2 ^ (b + 1)))%Q)
    by (rewrite <- (Zlt_Qlt 0); lia).
  assert (H2 : ~ (2 == 0)%Q) by discriminate.
  assert (Epow : forall e, 0 <= e -> (2 ^ e == inject_Z (2 ^ e))%Q).
  { intros e He; rewrite Zpower_Qpower by exact He; reflexivity. }
  split.
  - replace (a - b - 1) with (a - (b + 1)) by lia.
    rewrite Qpower_minus by exact H2.
    rewrite (Epow a), (Epow (b + 1)) by lia.
    apply Qlt_shift_div_l; [exact HD|].
    unfold Qdiv; rewrite <- Qmult_assoc, (Qmult_comm (/ _)), Qmult_assoc.
    apply Qlt_shift_div_r; [exact HB1|].
    rewrite <- !inject_Z_mult, <- Zlt_Qlt.
    rewrite Z.pow_add_r in * by lia. nia.
  - replace (a - b + 1) with (a + 1 - b) by lia.
    rewrite Qpower_minus by exact H2.
    rewrite (Epow (a + 1)), (Epow b) by lia.
    apply Qlt_shift_div_r; [exact HD|].
    unfold Qdiv; rewrite <- Qmult_assoc, (Qmult_comm (/ _)), Qmult_assoc.
    apply Qlt_shift_div_l; [exact HB|].
    rewrite <- !inject_Z_mult, <- Zlt_Qlt.
    rewrite Z.pow_add_r in * by lia. nia.
Qed.

Lemma Qlog2_floor_spec (x : Q) :
  (0 < x)%Q ->
  (2 ^ Qlog2_floor x <= x /\ x < 2 ^ (Qlog2_floor x + 1))%Q.
Proof.
  intros Hx.
  assert (Hn : 0 < Qnum x).
  { destruct x as [n d]; unfold Qlt in Hx; cbn [Qnum Qden] in *; lia. }
  pose proof (Z.log2_spec (Qnum x) Hn) as Ha.
  pose proof (Z.log2_spec (Zpos (Qden x)) (Pos2Z.is_pos _)) as Hb.
  rewrite <- !Z.add_1_r in Ha, Hb.
  pose proof (between_powers _ _ _ _ Hn (Pos2Z.is_pos _) Ha Hb
                (Z.log2_nonneg _) (Z.log2_nonneg _)) as [Hlo Hhi].
  rewrite <- (Qmake_Qdiv (Qnum x) (Qden x)) in Hlo, Hhi.
  assert (Hxe : (Qnum x # Qden x == x)%Q) by (destruct x; reflexivity).
  rewrite Hxe in Hlo, Hhi.
  unfold Qlog2_floor.
  set (k := Z.log2 (Qnum x) - Z.log2 (Z.pos (Qden x))) in *.
  destruct (Qle_bool (2 ^ k) x) eqn:E.
  - apply Qle_bool_iff in E; split; assumption.
  - split; [apply Qlt_le_weak; exact Hlo|].
    replace (k - 1 + 1) with k by lia.
    apply Qnot_le_lt; intros H; apply Qle_bool_iff in H; congruence.
Qed.

Lemma Qpower2_lt_le (j k : Z) : j < k -> (2 ^ (j + 1) <= 2 ^ k)%Q.
Proof.
  intros H; apply Qpower_le_compat_l; [lia | discriminate].
Qed.

Lemma Qlog2_floor_unique (x : Q) (k : Z) :
  (2 ^ k <= x)%Q -> (x < 2 ^ (k + 1))%Q -> Qlog2_floor x = k.
Proof.
  intros Hlo Hhi.
  assert (Hx : (0 < x)%Q).
  { apply Qlt_le_trans with (2 ^ k)%Q; [|exact Hlo].
    apply Qpower_0_lt; reflexivity. }
  destruct (Qlog2_floor_spec x Hx) as [Hlo' Hhi'].
  destruct (Z.lt_trichotomy (Qlog2_floor x) k) as [H | [H | H]];
    [exfalso | exact H | exfalso].
  - pose proof (Qpower2_lt_le _ _ H) as Hp.
    apply (Qlt_irrefl x).
    apply Qlt_le_trans with (2 ^ (Qlog2_floor x + 1))%Q; [exact Hhi'|].
    apply Qle_trans with (2 ^ k)%Q; assumption.
  - pose proof (Qpower2_lt_le _ _ H) as Hp.
    apply (Qlt_irrefl x).
    apply Qlt_le_trans with (2 ^ (k + 1))%Q; [exact Hhi|].
    apply Qle_trans with (2 ^ Qlog2_floor x)%Q; assumption.
Qed.

Lemma is_integer_iff (x : Q) :
  is_integer (math_log2 x) = true <-> exists k : Z, (x == 2 ^ k)%Q.
Proof.
  unfold is_integer, math_log2; cbn [antilog]; split.
  - intros H; apply Qeq_bool_iff in H; eexists; exact H.
  - intros [k Hk]; apply Qeq_bool_iff.
    assert (Hf : Qlog2_floor x = k).
    { apply Qlog2_floor_unique; rewrite Hk; [apply Qle_refl|].
      apply Qpower_lt_compat_l; [lia | reflexivity]. }
    rewrite Hf; exact Hk.
Qed.

(** ** The monad *)

Section DriverFacts.

Context {Dev : Type}.
Variable xfer : list Z -> Dev -> list Z * Dev.
Context {addresses : Addresses} {options : Options}.

Lemma spi_xfer_run (request : list Z) (w : World Dev) :
  spi_xfer xfer request w = (Ok (reply xfer request w), after xfer request w).
Proof.
  unfold spi_xfer, reply, after.
  destruct (xfer request (device w)); reflexivity.
Qed.

Lemma bind_run {A B} (c : M Dev A) (k : A -> M Dev B) w a w' :
  c w = (Ok a, w') -> bind c k w = k a w'.
Proof. intros H; unfold bind; rewrite H; reflexivity. Qed.

Lemma bind_raise {A B} (c : M Dev A) (k : A -> M Dev B) w e w' :
  c w = (Raise e, w') -> bind c k w = (Raise e, w').
Proof. intros H; unfold bind; rewrite H; reflexivity. Qed.

Lemma sent_after (request : list Z) (w : World Dev) :
  sent (after xfer request w) = sent w ++ [request].
Proof. reflexivity. Qed.

(** ** Bus transactions *)

Lemma _read_single_byte_run (register : Z) (w : World Dev) :
  let request := [Z.lor register 0x80; 0] in
  _read_single_byte xfer register w
  = (if len (reply xfer request w) =? 2
     then Ok (nth 1 (reply xfer request w) 0)
     else Raise AssertionError,
     after xfer request w).
Proof.
  unfold _read_single_byte; cbn zeta.
  rewrite (bind_run _ _ _ _ _ (spi_xfer_run _ w)).
  unfold bind, assert, ret, raise.
  change _READ_SINGLE_BYTE with 0x80.
  destruct (len _ =? 2); reflexivity.
Qed.

Lemma _read_status_register_run (register : Z) (w : World Dev) :
  let request := [Z.lor register 0xC0; 0] in
  _read_status_register xfer register w
  = (if len (reply xfer request w) =? 2
     then Ok (nth 1 (reply xfer request w) 0)
     else Raise AssertionError,
     after xfer request w).
Proof.
  unfold _read_status_register; cbn zeta.
  rewrite (bind_run _ _ _ _ _ (spi_xfer_run _ w)).
  unfold bind, assert, ret, raise.
  change _READ_BURST with 0xC0.
  destruct (len _ =? 2); reflexivity.
Qed.

Lemma _command_strobe_run (register : Z) (w : World Dev) :
  let request := [Z.lor register 0x00] in
  _command_strobe xfer register w
  = (if len (reply xfer request w) =? 1 then Ok tt else Raise AssertionError,
     after xfer request w).
Proof.
  unfold _command_strobe; cbn zeta.
  rewrite (bind_run _ _ _ _ _ (spi_xfer_run _ w)).
  unfold assert, ret, raise.
  change _WRITE_SINGLE_BYTE with 0x00.
  destruct (len _ =? 1); reflexivity.
Qed.

Lemma _write_burst_run (start_register : Z) (values : list Z) (w : World Dev) :
  let request := Z.lor start_register 0x40 :: values in
  let response := reply xfer request w in
  _write_burst xfer start_register values w
  = (if (len response =? len values + 1)
        && forallb (fun v => v =? nth 0 response 0) (skipn 1 response)
     then Ok tt else Raise AssertionError,
     after xfer request w).
Proof.
  unfold _write_burst; cbn zeta.
  rewrite (bind_run _ _ _ _ _ (spi_xfer_run _ w)).
  unfold bind, assert, ret, raise.
  change _WRITE_BURST with 0x40.
  destruct (len _ =? len values + 1); [|reflexivity].
  destruct (forallb _ _); reflexivity.
Qed.

Lemma _write_burst_sent (start_register : Z) (values : list Z) w :
  sent (snd (_write_burst xfer start_register values w))
  = sent w ++ [Z.lor start_register 0x40 :: values].
Proof. rewrite _write_burst_run; reflexivity. Qed.

(** C8: a burst write of k values raises AssertionError exactly when the
    response does not have k+1 bytes or one of the bytes after the leading
    status byte differs from it; it returns normally exactly when the
    response has k+1 bytes that all equal the first; either way the request
    (header with the burst-write flag, then the values) has gone over the
    bus. *)
Theorem write_burst_raises_iff_echo_mismatch
    (start_register : Z) (values : list Z) (w : World Dev) :
  let request := Z.lor start_register 0x40 :: values in
  let response := reply xfer request w in
  let outcome := _write_burst xfer start_register values w in
  snd outcome = after xfer request w
  /\ (fst outcome = Raise AssertionError
      <-> (List.length response <> S (List.length values)
           \/ exists v, In v (tl response) /\ v <> hd 0 response))
  /\ (fst outcome = Ok tt
      <-> (List.length response = S (List.length values)
           /\ forall v, In v (tl response) -> v = hd 0 response)).
Proof.
  intros request response outcome.
  subst outcome; rewrite _write_burst_run; fold request; fold response.
  cbn [fst snd].
  assert (Hlen : (len response =? len values + 1) = true
                 <-> List.length response = S (List.length values)).
  { unfold len; rewrite Z.eqb_eq; lia. }
  assert (Hall : forallb (fun v => v =? nth 0 response 0) (skipn 1 response)
                 = true
                 <-> forall v, In v (tl response) -> v = hd 0 response).
  { rewrite forallb_forall.
    destruct response as [|s echoes]; cbn [skipn tl hd nth];
      split; intros H v Hv; specialize (H v Hv);
      rewrite ?Z.eqb_eq in *; assumption. }
  split; [reflexivity|].
  destruct (len response =? len values + 1) eqn:El;
    destruct (forallb _ (skipn 1 response)) eqn:Ea; cbn [andb].
  - split; split; try discriminate; try reflexivity.
    + intros [Hn | (v & Hv & Hne)].
      * exfalso; apply Hn, Hlen; reflexivity.
      * exfalso; apply Hne.
        destruct Hall as [Hall _]; apply Hall; [reflexivity | assumption].
    + intros _; split; [apply Hlen | apply Hall]; reflexivity.
  - split; split; try discriminate; try reflexivity; intros H.
    + right.
      assert (Hex : exists v, In v (skipn 1 response)
                              /\ (v =? nth 0 response 0) = false).
      { clear - Ea. induction (skipn 1 response) as [|x l IH];
          [discriminate|].
        cbn [forallb] in Ea.
        destruct (x =? nth 0 response 0) eqn:Ex.
        - destruct (IH Ea) as (v & Hv & Hne).
          exists v; split; [right; assumption | assumption].
        - exists x; split; [left; reflexivity | assumption]. }
      destruct Hex as (v & Hv & Hne).
      exists v; rewrite Z.eqb_neq in Hne.
      destruct response; cbn [skipn tl hd nth] in *; auto.
    + destruct H as [_ H].
      destruct Hall as [_ Hall]; discriminate (Hall H).
  - split; split; try discriminate; try reflexivity; intros H.
    + left; intros Hn; apply Hlen in Hn; congruence.
    + destruct H as [H _]; apply Hlen in H; congruence.
  - split; split; try discriminate; try reflexivity; intros H.
    + left; intros Hn; apply Hlen in Hn; congruence.
    + destruct H as [H _]; apply Hlen in H; congruence.
Qed.

(** ** Register codec layer *)

Lemma same_outside_bits (field b b' : Z) :
  same_outside field b b'
  <-> forall i, 0 <= i -> Z.testbit field i = false ->
                Z.testbit b' i = Z.testbit b i.
Proof.
  unfold same_outside; split.
  - intros H i Hi Hf.
    apply (f_equal (fun z => Z.testbit z i)) in H.
    rewrite !Z.land_spec, Z.lnot_spec, Hf in H by assumption.
    cbn [negb] in H; rewrite !andb_true_r in H; exact H.
  - intros H; apply Z.bits_inj'; intros i Hi.
    rewrite !Z.land_spec, Z.lnot_spec by assumption.
    destruct (Z.testbit field i) eqn:Hf; cbn [negb].
    + rewrite !andb_false_r; reflexivity.
    + rewrite (H i Hi Hf); reflexivity.
Qed.

Lemma land_byte (b : Z) : 0 <= b < 256 -> Z.land b 255 = b.
Proof.
  intros Hb; change 255 with (Z.ones 8).
  rewrite Z.land_ones by lia; apply Z.mod_small; exact Hb.
Qed.

(** The read-modify-write pattern [(b & mask) | value]. *)
Lemma mask_or_same_outside (field mask value b : Z) :
  0 <= b < 256 ->
  Z.land 255 (Z.land mask (Z.lnot field)) = Z.land 255 (Z.lnot field) ->
  Z.land value (Z.lnot field) = 0 ->
  same_outside field b (Z.lor (Z.land b mask) value).
Proof.
  intros Hb Hmask Hvalue; unfold same_outside.
  rewrite Z.land_lor_distr_l, Hvalue, Z.lor_0_r.
  rewrite <- (land_byte b Hb) at 1 2.
  rewrite <- !Z.land_assoc, Hmask; reflexivity.
Qed.

Ltac eval_bin :=
  repeat match goal with
         | |- context [bin ?s] =>
             let v := eval vm_compute in (bin s) in change (bin s) with v
         end.

(** Runs a setter whose first step is the read of hypothesis [Hread]. *)
Ltac run_setter Hread :=
  cbn zeta; rewrite (bind_run _ _ _ _ _ Hread);
  rewrite ?_write_burst_sent.

Lemma set_sync_mode_rewrites (mode : Z) :
  0 <= mode <= 3 -> rewrites xfer (set_sync_mode xfer mode) MDMCFG2 0x03.
Proof.
  intros Hmode w w1 b Hb Hread; eexists; split.
  - unfold set_sync_mode; run_setter Hread; reflexivity.
  - eval_bin; apply mask_or_same_outside; [exact Hb | reflexivity |].
    assert (H : mode = 0 \/ mode = 1 \/ mode = 2 \/ mode = 3) by lia.
    destruct H as [-> | [-> | [-> | ->]]]; reflexivity.
Qed.

Lemma set_packet_length_mode_rewrites (mode : Z) :
  0 <= mode <= 3 ->
  rewrites xfer (set_packet_length_mode xfer mode) PKTCTRL0 0x03.
Proof.
  intros Hmode w w1 b Hb Hread; eexists; split.
  - unfold set_packet_length_mode; run_setter Hread; reflexivity.
  - eval_bin; apply mask_or_same_outside; [exact Hb | reflexivity |].
    assert (H : mode = 0 \/ mode = 1 \/ mode = 2 \/ mode = 3) by lia.
    destruct H as [-> | [-> | [-> | ->]]]; reflexivity.
Qed.

Lemma _set_transceive_mode_rewrites (mode : _TransceiveMode) :
  rewrites xfer (_set_transceive_mode xfer mode) PKTCTRL0 0x30.
Proof.
  intros w w1 b Hb Hread; eexists; split.
  - unfold _set_transceive_mode; run_setter Hread; reflexivity.
  - eval_bin; apply mask_or_same_outside; [exact Hb | reflexivity |].
    destruct mode; reflexivity.
Qed.

Lemma _set_modulation_format_rewrites (modulation_format : Z) :
  0 <= modulation_format <= 7 ->
  rewrites xfer (_set_modulation_format xfer modulation_format) MDMCFG2 0x70.
Proof.
  intros Hv w w1 b Hb Hread; eexists; split.
  - unfold _set_modulation_format; run_setter Hread; reflexivity.
  - assert (H : modulation_format = 0 \/ modulation_format = 1
                \/ modulation_format = 2 \/ modulation_format = 3
                \/ modulation_format = 4 \/ modulation_format = 5
                \/ modulation_format = 6 \/ modulation_format = 7) by lia.
    destruct H as [-> | [-> | [-> | [-> | [-> | [-> | [-> | ->]]]]]]];
      apply mask_or_same_outside; first [exact Hb | reflexivity].
Qed.

Lemma _set_preamble_length_index_rewrites (index : Z) :
  0 <= index <= 7 ->
  rewrites xfer (_set_preamble_length_index xfer index) MDMCFG1 0x70.
Proof.
  intros Hv w w1 b Hb Hread; eexists; split.
  - unfold _set_preamble_length_index.
    replace ((0 <=? index) && (index <=? bin "111")) with true
      by (eval_bin; symmetry; apply andb_true_intro; split;
          apply Z.leb_le; lia).
    unfold bind at 1; cbn [assert ret].
    run_setter Hread; reflexivity.
  - eval_bin.
    assert (H : index = 0 \/ index = 1 \/ index = 2 \/ index = 3
                \/ index = 4 \/ index = 5 \/ index = 6 \/ index = 7) by lia.
    destruct H as [-> | [-> | [-> | [-> | [-> | [-> | [-> | ->]]]]]]];
      apply mask_or_same_outside; first [exact Hb | reflexivity].
Qed.

Lemma _set_filter_bandwidth_rewrites (mantissa exponent : Z) :
  0 <= mantissa <= 3 -> 0 <= exponent <= 3 ->
  rewrites xfer (_set_filter_bandwidth xfer mantissa exponent) MDMCFG4 0xF0.
Proof.
  intros Hm He w w1 b Hb Hread; eexists; split.
  - unfold _set_filter_bandwidth; run_setter Hread.
    replace ((0 <=? exponent) && (exponent <=? bin "11")) with true
      by (eval_bin; symmetry; apply andb_true_intro; split;
          apply Z.leb_le; lia).
    replace ((0 <=? mantissa) && (mantissa <=? bin "11")) with true
      by (eval_bin; symmetry; apply andb_true_intro; split;
          apply Z.leb_le; lia).
    unfold bind at 1; cbn [assert ret].
    unfold bind at 1; cbn [assert ret].
    rewrite _write_burst_sent; reflexivity.
  - eval_bin; rewrite <- Z.lor_assoc.
    assert (H1 : mantissa = 0 \/ mantissa = 1 \/ mantissa = 2
                 \/ mantissa = 3) by lia.
    assert (H2 : exponent = 0 \/ exponent = 1 \/ exponent = 2
                 \/ exponent = 3) by lia.
    destruct H1 as [-> | [-> | [-> | ->]]];
      destruct H2 as [-> | [-> | [-> | ->]]];
      apply mask_or_same_outside; first [exact Hb | reflexivity].
Qed.

Lemma enable_manchester_code_rewrites :
  rewrites xfer (enable_manchester_code xfer) MDMCFG2 0x08.
Proof.
  intros w w1 b Hb Hread; eexists; split.
  - unfold enable_manchester_code; run_setter Hread; reflexivity.
  - eval_bin; rewrite <- (Z.land_m1_r b) at 2.
    apply mask_or_same_outside; first [exact Hb | reflexivity].
Qed.

Lemma _disable_data_whitening_rewrites :
  rewrites xfer (_disable_data_whitening xfer) PKTCTRL0 0x40.
Proof.
  intros w w1 b Hb Hread; eexists; split.
  - unfold _disable_data_whitening; run_setter Hread; reflexivity.
  - eval_bin; rewrite <- (Z.lor_0_r (Z.land b _)).
    apply mask_or_same_outside; first [exact Hb | reflexivity].
Qed.

Lemma disable_checksum_rewrites :
  rewrites xfer (disable_checksum xfer) PKTCTRL0 0x04.
Proof.
  intros w w1 b Hb Hread; eexists; split.
  - unfold disable_checksum; run_setter Hread; reflexivity.
  - eval_bin; rewrite <- (Z.lor_0_r (Z.land b _)).
    apply mask_or_same_outside; first [exact Hb | reflexivity].
Qed.

Lemma _set_power_amplifier_setting_index_sent (setting_index : Z) w w1 b :
  _read_single_byte xfer FREND0 w = (Ok b, w1) ->
  sent (snd (_set_power_amplifier_setting_index xfer setting_index w))
  = sent w1 ++ [[Z.lor FREND0 0x40; setting_index]].
Proof.
  intros Hread; unfold _set_power_amplifier_setting_index.
  run_setter Hread; reflexivity.
Qed.

(** C10: a packet length below 1 or above 255 fails the assertion with the
    world untouched, so nothing has been sent; a packet length from 1 to 255
    goes on to the burst write of that one byte, unchanged, to PKTLEN. *)
Theorem set_packet_length_bytes_accepts_1_to_255
    (packet_length : Z) (w : World Dev) :
  (packet_length < 1 \/ 255 < packet_length ->
     set_packet_length_bytes xfer packet_length w = (Raise AssertionError, w))
  /\ (1 <= packet_length <= 255 ->
        set_packet_length_bytes xfer packet_length w
        = _write_burst xfer PKTLEN [packet_length] w
        /\ sent (snd (set_packet_length_bytes xfer packet_length w))
           = sent w ++ [[Z.lor PKTLEN 0x40; packet_length]]).
Proof.
  unfold set_packet_length_bytes; split; intros H.
  - replace ((1 <=? packet_length) && (packet_length <=? 255)) with false;
      [reflexivity|].
    symmetry; apply andb_false_iff.
    destruct H; [left; apply Z.leb_gt | right; apply Z.leb_gt]; lia.
  - replace ((1 <=? packet_length) && (packet_length <=? 255)) with true
      by (symmetry; apply andb_true_intro; split; apply Z.leb_le; lia).
    cbv [bind assert ret].
    split; [reflexivity | apply _write_burst_sent].
Qed.

(** ** Transmission *)

Lemma get_packet_length_mode_sent w mode w1 :
  get_packet_length_mode xfer w = (Ok mode, w1) ->
  sent w1 = sent w ++ [[Z.lor PKTCTRL0 0x80; 0]].
Proof.
  unfold get_packet_length_mode, bind.
  rewrite _read_single_byte_run; cbn zeta.
  destruct (len _ =? 2); [|discriminate].
  destruct (existsb _ _); unfold ret, raise; intros H; inversion H.
  reflexivity.
Qed.

Lemma get_packet_length_bytes_sent w L w1 :
  get_packet_length_bytes xfer w = (Ok L, w1) ->
  sent w1 = sent w ++ [[Z.lor PKTLEN 0x80; 0]].
Proof.
  unfold get_packet_length_bytes.
  rewrite _read_single_byte_run; cbn zeta.
  destruct (len _ =? 2); intros H; inversion H; reflexivity.
Qed.

Lemma get_main_radio_control_state_machine_state_sent w s w1 :
  get_main_radio_control_state_machine_state xfer w = (Ok s, w1) ->
  sent w1 = sent w ++ [[Z.lor MARCSTATE 0xC0; 0]].
Proof.
  unfold get_main_radio_control_state_machine_state, bind.
  rewrite _read_status_register_run; cbn zeta.
  destruct (len _ =? 2); [|discriminate].
  destruct (MainRadioControlStateMachineState_of _);
    unfold ret, raise; intros H; inversion H; reflexivity.
Qed.

Lemma MainRadioControlStateMachineState_eqb_eq a b :
  MainRadioControlStateMachineState_eqb a b = true <-> a = b.
Proof. destruct a, b; cbn; split; congruence. Qed.

Lemma len_nil_iff (l : list Z) : (len l =? 0) = true <-> l = [].
Proof.
  unfold len; rewrite Z.eqb_eq; destruct l; cbn [List.length]; split;
    try reflexivity; try discriminate; lia.
Qed.

Lemma int_to_bytes_big_1 (n : Z) :
  0 <= n <= 255 -> int_to_bytes_big 1 n = Ok [n].
Proof.
  intros Hn; unfold int_to_bytes_big.
  replace (n <? 0) with false by (symmetry; apply Z.ltb_ge; lia).
  change (256 ^ Z.of_nat 1) with 256.
  replace (256 <=? n) with false by (symmetry; apply Z.leb_gt; lia).
  cbn [big_endian_digits app]; rewrite Z.mod_small by lia; reflexivity.
Qed.

(** The framing step of [transmit], once mode and length are read. *)
Lemma transmit_run payload w mode L w1 w2 :
  get_packet_length_mode xfer w = (Ok mode, w1) ->
  get_packet_length_bytes xfer w1 = (Ok L, w2) ->
  passes_validation mode L payload ->
  transmit xfer payload w
  = bind (get_main_radio_control_state_machine_state xfer)
      (fun marcstate =>
         if negb (MainRadioControlStateMachineState_eqb marcstate IDLE) then
           raise (Exception "device must be idle before transmission")
         else
           bind (_flush_tx_fifo_buffer xfer) (fun _ =>
           bind (_write_burst xfer TX
                   (if mode =? VARIABLE then len payload :: payload
                    else payload)) (fun _ =>
           _command_strobe xfer STX))) w2.
Proof.
  intros Hmode Hlen [Hvar Hfix]; unfold transmit.
  rewrite (bind_run _ _ _ _ _ Hmode), (bind_run _ _ _ _ _ Hlen).
  destruct (mode =? VARIABLE) eqn:Ev.
  - apply Z.eqb_eq in Ev; destruct (Hvar Ev) as (Hne & HL & H255).
    destruct (len payload =? 0) eqn:E0;
      [apply len_nil_iff in E0; contradiction|].
    replace (len payload >? L) with false
      by (symmetry; rewrite Z.gtb_ltb; apply Z.ltb_ge; lia).
    rewrite int_to_bytes_big_1 by (unfold len in *; lia).
    reflexivity.
  - apply Z.eqb_neq in Ev.
    destruct (mode =? FIXED) eqn:Ef; cbn [andb].
    + apply Z.eqb_eq in Ef.
      replace (len payload =? L) with true
        by (symmetry; apply Z.eqb_eq; auto).
      reflexivity.
    + reflexivity.
Qed.

Lemma write_then_strobe_sent (register strobe : Z) (values : list Z) w :
  exists rest,
    sent (snd (bind (_write_burst xfer register values)
                 (fun _ => _command_strobe xfer strobe) w))
    = sent w ++ (Z.lor register 0x40 :: values) :: rest.
Proof.
  unfold bind; rewrite _write_burst_run; cbn zeta.
  destruct (_ && _).
  - rewrite _command_strobe_run; cbn zeta; cbn [snd].
    rewrite !sent_after, <- app_assoc.
    eexists; reflexivity.
  - exists []; reflexivity.
Qed.

(** C3: with the packet-length mode and the configured length L read from
    the chip, [transmit] in variable mode raises ValueError for an empty
    payload and for a payload longer than L, and otherwise, once the radio
    reports IDLE and the TX FIFO is flushed, burst-writes to the TX FIFO the
    payload's length (which is not zero) followed by the payload; in fixed
    mode it raises ValueError for a payload whose length is not L and
    otherwise burst-writes the payload as it is. *)
Theorem transmit_frames_by_packet_length_mode
    (payload : list Z) (w w1 w2 : World Dev) (mode L : Z) :
  get_packet_length_mode xfer w = (Ok mode, w1) ->
  get_packet_length_bytes xfer w1 = (Ok L, w2) ->
  0 <= L <= 255 ->
  FIXED <> VARIABLE ->
  (mode = VARIABLE ->
     (payload = [] ->
        transmit xfer payload w = (Raise (ValueError "empty payload"), w2))
     /\ (L < len payload ->
           transmit xfer payload w
           = (Raise (ValueError "payload exceeds maximum payload length"),
              w2))
     /\ (payload <> [] -> len payload <= L ->
           len payload <> 0
           /\ forall w3 w4,
               get_main_radio_control_state_machine_state xfer w2
               = (Ok IDLE, w3) ->
               _flush_tx_fifo_buffer xfer w3 = (Ok tt, w4) ->
               transmit xfer payload w
               = bind (_write_burst xfer TX (len payload :: payload))
                   (fun _ => _command_strobe xfer STX) w4
               /\ exists rest,
                   sent (snd (transmit xfer payload w))
                   = sent w4
                     ++ (Z.lor TX 0x40 :: len payload :: payload) :: rest))
  /\ (mode = FIXED ->
        (len payload <> L ->
           transmit xfer payload w
           = (Raise (ValueError "expected payload length"), w2))
        /\ (len payload = L ->
              forall w3 w4,
                get_main_radio_control_state_machine_state xfer w2
                = (Ok IDLE, w3) ->
                _flush_tx_fifo_buffer xfer w3 = (Ok tt, w4) ->
                transmit xfer payload w
                = bind (_write_burst xfer TX payload)
                    (fun _ => _command_strobe xfer STX) w4
                /\ exists rest,
                    sent (snd (transmit xfer payload w))
                    = sent w4 ++ (Z.lor TX 0x40 :: payload) :: rest)).
Proof.
  intros Hmode Hlen HL Hdistinct.
  assert (Hgo : forall w3 w4,
             passes_validation mode L payload ->
             get_main_radio_control_state_machine_state xfer w2
             = (Ok IDLE, w3) ->
             _flush_tx_fifo_buffer xfer w3 = (Ok tt, w4) ->
             transmit xfer payload w
             = bind (_write_burst xfer TX
                       (if mode =? VARIABLE then len payload :: payload
                        else payload))
                 (fun _ => _command_strobe xfer STX) w4).
  { intros w3 w4 Hvalid Hstate Hflush.
    rewrite (transmit_run _ _ _ _ _ _ Hmode Hlen Hvalid).
    rewrite (bind_run _ _ _ _ _ Hstate); cbn [negb].
    change (MainRadioControlStateMachineState_eqb IDLE IDLE) with true.
    cbn [negb]; rewrite (bind_run _ _ _ _ _ Hflush); reflexivity. }
  split; intros Hm.
  - split; [|split].
    + intros ->; unfold transmit.
      rewrite (bind_run _ _ _ _ _ Hmode), (bind_run _ _ _ _ _ Hlen).
      rewrite Hm, Z.eqb_refl; reflexivity.
    + intros Hlong; unfold transmit.
      rewrite (bind_run _ _ _ _ _ Hmode), (bind_run _ _ _ _ _ Hlen).
      rewrite Hm, Z.eqb_refl.
      replace (len payload =? 0) with false
        by (symmetry; apply Z.eqb_neq; lia).
      replace (len payload >? L) with true
        by (symmetry; rewrite Z.gtb_ltb; apply Z.ltb_lt; lia).
      reflexivity.
    + intros Hne Hfits.
      assert (Hvalid : passes_validation mode L payload).
      { split; [intros _; repeat split; [assumption | assumption | lia]
               | intros Hn; contradiction]. }
      split.
      * intros H0; apply Hne, len_nil_iff, Z.eqb_eq; exact H0.
      * intros w3 w4 Hstate Hflush.
        rewrite (Hgo _ _ Hvalid Hstate Hflush), Hm, Z.eqb_refl.
        split; [reflexivity | apply write_then_strobe_sent].
  - assert (Hnv : (mode =? VARIABLE) = false)
      by (apply Z.eqb_neq; congruence).
    split.
    + intros Hne; unfold transmit.
      rewrite (bind_run _ _ _ _ _ Hmode), (bind_run _ _ _ _ _ Hlen).
      rewrite Hnv, Hm, Z.eqb_refl.
      replace (len payload =? L) with false
        by (symmetry; apply Z.eqb_neq; assumption).
      reflexivity.
    + intros Heq w3 w4 Hstate Hflush.
      assert (Hvalid : passes_validation mode L payload).
      { split; [intros Hv; congruence | intros _ _; assumption]. }
      rewrite (Hgo _ _ Hvalid Hstate Hflush), Hnv.
      split; [reflexivity | apply write_then_strobe_sent].
Qed.

Lemma lor_0x80_bit7 (register : Z) : Z.testbit (Z.lor register 0x80) 7 = true.
Proof. rewrite Z.lor_spec; apply orb_true_r. Qed.

Lemma lor_0xC0_bit7 (register : Z) : Z.testbit (Z.lor register 0xC0) 7 = true.
Proof. rewrite Z.lor_spec; apply orb_true_r. Qed.

Lemma lor_0x40_bit7 (register : Z) :
  0 <= register < 64 -> Z.testbit (Z.lor register 0x40) 7 = false.
Proof.
  intros H; rewrite Z.lor_spec, orb_false_r.
  apply Z.bits_above_log2; [lia|].
  destruct (Z.eq_dec register 0) as [->|]; [reflexivity|].
  apply Z.log2_lt_pow2; lia.
Qed.

(** C4: when the payload passes the checks of its packet-length mode and
    the radio state read next is a state other than IDLE, [transmit] raises
    the generic Exception, and all it has sent are the three reads (mode,
    length, state): none of them is the flush or the transmit strobe, and,
    the TX FIFO address being a six-bit address, none of them is a burst
    write to the TX FIFO. *)
Theorem transmit_not_idle_raises_before_any_write
    (payload : list Z) (w w1 w2 w3 : World Dev) (mode L : Z)
    (state : MainRadioControlStateMachineState) :
  get_packet_length_mode xfer w = (Ok mode, w1) ->
  get_packet_length_bytes xfer w1 = (Ok L, w2) ->
  passes_validation mode L payload ->
  get_main_radio_control_state_machine_state xfer w2 = (Ok state, w3) ->
  state <> IDLE ->
  let reads := [[Z.lor PKTCTRL0 0x80; 0];
                [Z.lor PKTLEN 0x80; 0];
                [Z.lor MARCSTATE 0xC0; 0]] in
  transmit xfer payload w
  = (Raise (Exception "device must be idle before transmission"), w3)
  /\ sent w3 = sent w ++ reads
  /\ (forall request, In request reads ->
        request <> [Z.lor SFTX 0x00] /\ request <> [Z.lor STX 0x00])
  /\ (0 <= TX < 64 ->
      forall request values, In request reads ->
        request <> Z.lor TX 0x40 :: values).
Proof.
  intros Hmode Hlen Hvalid Hstate Hne reads; split; [|split; [|split]].
  - rewrite (transmit_run _ _ _ _ _ _ Hmode Hlen Hvalid).
    rewrite (bind_run _ _ _ _ _ Hstate).
    destruct (MainRadioControlStateMachineState_eqb state IDLE) eqn:E;
      [apply MainRadioControlStateMachineState_eqb_eq in E; contradiction|].
    reflexivity.
  - rewrite (get_main_radio_control_state_machine_state_sent _ _ _ Hstate).
    rewrite (get_packet_length_bytes_sent _ _ _ Hlen).
    rewrite (get_packet_length_mode_sent _ _ _ Hmode).
    rewrite <- !app_assoc; reflexivity.
  - intros request Hin.
    split; destruct Hin as [<- | [<- | [<- | []]]]; discriminate.
  - intros HTX request values Hin Heq.
    pose proof (lor_0x40_bit7 TX HTX) as Hbit.
    destruct Hin as [<- | [<- | [<- | []]]]; inversion Heq as [[Hh Ht]];
      rewrite <- Hh in Hbit;
      rewrite ?lor_0x80_bit7, ?lor_0xC0_bit7 in Hbit; discriminate.
Qed.

(** A MARCSTATE byte that does not name a member of the enumeration: the
    state read itself raises ValueError, after the same three reads. *)
Lemma transmit_unknown_state_raises_before_any_write
    (payload : list Z) (w w1 w2 w3 : World Dev) (mode L v : Z) :
  get_packet_length_mode xfer w = (Ok mode, w1) ->
  get_packet_length_bytes xfer w1 = (Ok L, w2) ->
  passes_validation mode L payload ->
  _read_status_register xfer MARCSTATE w2 = (Ok v, w3) ->
  MainRadioControlStateMachineState_of v = None ->
  transmit xfer payload w
  = (Raise (ValueError "is not a valid MainRadioControlStateMachineState"),
     w3)
  /\ sent w3 = sent w ++ [[Z.lor PKTCTRL0 0x80; 0];
                          [Z.lor PKTLEN 0x80; 0];
                          [Z.lor MARCSTATE 0xC0; 0]].
Proof.
  intros Hmode Hlen Hvalid Hread Hnone; split.
  - rewrite (transmit_run _ _ _ _ _ _ Hmode Hlen Hvalid).
    unfold get_main_radio_control_state_machine_state.
    unfold bind at 1; rewrite (bind_run _ _ _ _ _ Hread), Hnone.
    reflexivity.
  - rewrite _read_status_register_run in Hread; cbn zeta in Hread.
    destruct (len _ =? 2); inversion Hread as [[Hv Hw]].
    rewrite sent_after.
    rewrite (get_packet_length_bytes_sent _ _ _ Hlen).
    rewrite (get_packet_length_mode_sent _ _ _ Hmode).
    rewrite <- !app_assoc; reflexivity.
Qed.

(** ** Asynchronous transmission *)

Lemma try_finally_world {A} (c : M Dev A) (f : M Dev unit) w r w' :
  c w = (r, w') -> snd (try_finally c f w) = snd (f w').
Proof.
  intros H; unfold try_finally; rewrite H.
  destruct (f w') as [[[]|e] w'']; reflexivity.
Qed.

Lemma try_finally_outcome {A} (c : M Dev A) (f : M Dev unit) w r w' :
  c w = (r, w') -> fst (f w') = Ok tt -> fst (try_finally c f w) = r.
Proof.
  intros H Hf; unfold try_finally; rewrite H.
  destruct (f w') as [[[]|e] w'']; [reflexivity | discriminate].
Qed.

Lemma fifo_field_cleared (b : Z) :
  Z.land (Z.shiftr (Z.land b (Z.lnot 0x30)) 4) 3 = 0.
Proof.
  apply Z.bits_inj'; intros i Hi.
  rewrite Z.land_spec, Z.shiftr_spec, Z.land_spec, Z.lnot_spec, Z.bits_0
    by lia.
  assert (H : i = 0 \/ i = 1 \/ 2 <= i) by lia.
  destruct H as [-> | [-> | H]].
  - cbn; rewrite andb_false_r; reflexivity.
  - cbn; rewrite andb_false_r; reflexivity.
  - replace (Z.testbit 3 i) with false; [apply andb_false_r|].
    symmetry; apply Z.bits_above_log2; [lia | cbn; lia].
Qed.

(** C9: once the scope is entered (asynchronous-serial framing set, transmit
    strobe accepted), then whatever the body does -- return a value or
    raise -- the release block runs from the world the body left: the world
    after the [with] statement is the world after strobing idle and setting
    the transceive mode to FIFO there; when the release block itself
    succeeds the body's outcome (value or exception) is the outcome of the
    statement; and when the bus answers the idle strobe and the PKTCTRL0
    read, the release sends, in this order, the idle strobe, the read of
    PKTCTRL0, and the write of PKTCTRL0 with the format field at FIFO. *)
Theorem asynchronous_transmission_always_releases
    {A : Type} (body : Pin -> M Dev A) (w w1 w2 w3 : World Dev)
    (outcome : result A) :
  _set_transceive_mode xfer ASYNCHRONOUS_SERIAL w = (Ok tt, w1) ->
  _command_strobe xfer STX w1 = (Ok tt, w2) ->
  body GDO0 w2 = (outcome, w3) ->
  let release :=
    bind (_command_strobe xfer SIDLE)
      (fun _ => _set_transceive_mode xfer FIFO) in
  snd (asynchronous_transmission xfer body w) = snd (release w3)
  /\ (fst (release w3) = Ok tt ->
      fst (asynchronous_transmission xfer body w) = outcome)
  /\ (forall w4 w5 b,
        _command_strobe xfer SIDLE w3 = (Ok tt, w4) ->
        _read_single_byte xfer PKTCTRL0 w4 = (Ok b, w5) ->
        let b' := Z.land b (Z.lnot 0x30) in
        sent (snd (asynchronous_transmission xfer body w))
        = sent w3 ++ [[Z.lor SIDLE 0x00];
                      [Z.lor PKTCTRL0 0x80; 0];
                      [Z.lor PKTCTRL0 0x40; b']]
        /\ Z.land (Z.shiftr b' 4) 3 = _TransceiveMode_value FIFO).
Proof.
  intros Hmode Hstrobe Hbody release.
  assert (Hrun : asynchronous_transmission xfer body w
                 = try_finally (body GDO0) release w2).
  { unfold asynchronous_transmission.
    rewrite (bind_run _ _ _ _ _ Hmode), (bind_run _ _ _ _ _ Hstrobe).
    reflexivity. }
  rewrite Hrun; split; [|split].
  - exact (try_finally_world _ _ _ _ _ Hbody).
  - exact (try_finally_outcome _ _ _ _ _ Hbody).
  - intros w4 w5 b Hidle Hread b'.
    rewrite (try_finally_world _ _ _ _ _ Hbody).
    split; [|apply fifo_field_cleared].
    subst release; cbv beta.
    rewrite (bind_run _ _ _ _ _ Hidle).
    unfold _set_transceive_mode; run_setter Hread.
    assert (H4 : sent w4 = sent w3 ++ [[Z.lor SIDLE 0x00]]).
    { rewrite _command_strobe_run in Hidle; cbn zeta in Hidle.
      destruct (len _ =? 1); inversion Hidle; reflexivity. }
    assert (H5 : sent w5 = sent w4 ++ [[Z.lor PKTCTRL0 0x80; 0]]).
    { rewrite _read_single_byte_run in Hread; cbn zeta in Hread.
      destruct (len _ =? 2); inversion Hread; reflexivity. }
    rewrite H5, H4, <- !app_assoc; cbn [app].
    eval_bin; cbn [_TransceiveMode_value].
    change (Z.shiftl 0 4) with 0; rewrite !Z.lor_0_r; reflexivity.
Qed.

(** ** Reception *)

Lemma forallb_byte_true (values : list Z) :
  Forall (fun v => 0 <= v < 256) values ->
  forallb (fun v => (0 <=? v) && (v <? 256)) values = true.
Proof.
  intros H; apply forallb_forall; intros v Hv.
  rewrite Forall_forall in H; specialize (H v Hv).
  apply andb_true_intro; split; [apply Z.leb_le | apply Z.ltb_lt]; lia.
Qed.

Lemma _read_burst_run (start_register length : Z) (w : World Dev) :
  let request := Z.lor start_register 0xC0 :: repeat 0 (Z.to_nat length) in
  _read_burst xfer start_register length w
  = (if len (reply xfer request w) =? length + 1
     then Ok (skipn 1 (reply xfer request w))
     else Raise AssertionError,
     after xfer request w).
Proof.
  unfold _read_burst; cbn zeta.
  rewrite (bind_run _ _ _ _ _ (spi_xfer_run _ w)).
  unfold bind, assert, ret, raise.
  change _READ_BURST with 0xC0.
  destruct (len _ =? length + 1); reflexivity.
Qed.

Lemma _get_received_packet_none w n w1 :
  _read_status_register xfer RXBYTES w = (Ok n, w1) ->
  n < 2 ->
  _get_received_packet xfer w = (Ok None, w1).
Proof.
  intros Hn Hlt; unfold _get_received_packet.
  rewrite (bind_run _ _ _ _ _ Hn).
  replace (n <? 2) with true by (symmetry; apply Z.ltb_lt; exact Hlt).
  reflexivity.
Qed.

(** What the receive operation makes of a buffer: all but the last two
    bytes, the second-to-last byte, whether the last byte shifted right by
    seven is nonzero, and the last byte masked with [0b0111111]. *)
Lemma _get_received_packet_parses w n w1 payload rssi trailer w2 :
  _read_status_register xfer RXBYTES w = (Ok n, w1) ->
  _read_burst xfer RX n w1 = (Ok (payload ++ [rssi; trailer]), w2) ->
  Forall (fun v => 0 <= v < 256) (payload ++ [rssi; trailer]) ->
  n = len payload + 2
  /\ sent w2 = sent w1 ++ [Z.lor RX 0xC0 :: repeat 0 (Z.to_nat n)]
  /\ _get_received_packet xfer w
     = (Ok (Some (mk_ReceivedPacket payload rssi
                    (negb (Z.shiftr trailer 7 =? 0))
                    (Z.land trailer 0x3F))), w2).
Proof.
  intros Hn Hburst Hbytes.
  assert (Hlen : n = len payload + 2
                 /\ sent w2
                    = sent w1 ++ [Z.lor RX 0xC0 :: repeat 0 (Z.to_nat n)]).
  { rewrite _read_burst_run in Hburst; cbn zeta in Hburst.
    destruct (len _ =? n + 1) eqn:E; inversion Hburst as [[Hb Hw]].
    split; [|reflexivity].
    apply Z.eqb_eq in E.
    apply (f_equal (@List.length Z)) in Hb.
    rewrite length_app in Hb; cbn [List.length] in Hb.
    unfold len in *.
    destruct (reply xfer _ w1); cbn [List.length] in *; lia. }
  destruct Hlen as [Hlen Hsent]; split; [exact Hlen | split; [exact Hsent|]].
  unfold _get_received_packet.
  rewrite (bind_run _ _ _ _ _ Hn).
  replace (n <? 2) with false
    by (symmetry; apply Z.ltb_ge; unfold len in Hlen; lia).
  rewrite (bind_run _ _ _ _ _ Hburst); cbn zeta.
  rewrite length_app; cbn [List.length].
  replace (List.length payload + 2 - 2)%nat with (List.length payload)
    by lia.
  replace (List.length payload + 2 - 1)%nat with (S (List.length payload))
    by lia.
  rewrite firstn_app, firstn_all, Nat.sub_diag, firstn_O, app_nil_r.
  rewrite !app_nth2 by lia.
  rewrite Nat.sub_diag.
  replace (S (List.length payload) - List.length payload)%nat with 1%nat
    by lia.
  cbn [nth].
  apply Forall_app in Hbytes; destruct Hbytes as [Hp Ht].
  inversion Ht as [|? ? Hr Ht']; subst.
  unfold bytes; rewrite (forallb_byte_true _ Hp).
  unfold _ReceivedPacket__init__.
  replace ((0 <=? rssi) && (rssi <? Z.shiftl 1 8)) with true
    by (symmetry; apply andb_true_intro; split;
        [apply Z.leb_le | apply Z.ltb_lt]; cbn; lia).
  eval_bin.
  assert (Hq : 0 <= Z.land trailer 63 < 64).
  { change 63 with (Z.ones 6); rewrite Z.land_ones by lia.
    apply Z.mod_pos_bound; lia. }
  replace ((0 <=? Z.land trailer 63) && (Z.land trailer 63 <? Z.shiftl 1 7))
    with true
    by (symmetry; apply andb_true_intro; split;
        [apply Z.leb_le | apply Z.ltb_lt]; cbn; lia).
  reflexivity.
Qed.

(** ** Preamble length *)








Lemma byte_top_bit (t : Z) :
  0 <= t < 256 -> negb (Z.shiftr t 7 =? 0) = Z.testbit t 7.
Proof.
  intros Ht; rewrite Z.shiftr_div_pow2 by lia.
  destruct (Z.testbit t 7) eqn:E.
  - apply Z.testbit_true in E; [|lia].
    destruct (t / 2 ^ 7 =? 0) eqn:E0; [|reflexivity].
    apply Z.eqb_eq in E0; rewrite E0 in E; discriminate.
  - apply Z.testbit_false in E; [|lia].
    assert (H : 0 <= t / 2 ^ 7 < 2)
      by (split; [apply Z.div_pos; lia | apply Z.div_lt_upper_bound; lia]).
    replace (t / 2 ^ 7) with 0 by (pose proof (Z.mod_small (t / 2 ^ 7) 2); lia).
    reflexivity.
Qed.

Lemma low_six_bits_are_low_seven (t : Z) :
  Z.testbit t 6 = false -> Z.land t 0x3F = Z.land t 0x7F.
Proof.
  intros H6; apply Z.bits_inj'; intros i Hi.
  rewrite !Z.land_spec.
  destruct (Z.eq_dec i 6) as [-> | Hne];
    [rewrite H6; reflexivity|].
  f_equal.
  assert (H : i = 0 \/ i = 1 \/ i = 2 \/ i = 3 \/ i = 4 \/ i = 5 \/ 7 <= i)
    by lia.
  destruct H as [-> | [-> | [-> | [-> | [-> | [-> | H]]]]]];
    try reflexivity.
  rewrite !Z.bits_above_log2; try reflexivity; cbn; lia.
Qed.

Lemma last_two (buffer : list Z) :
  (2 <= List.length buffer)%nat ->
  exists payload rssi trailer, buffer = payload ++ [rssi; trailer].
Proof.
  intros Hlen.
  destruct (exists_last (l := buffer)) as (front & trailer & ->);
    [intros ->; cbn in Hlen; lia|].
  rewrite length_app in Hlen; cbn [List.length] in Hlen.
  destruct (exists_last (l := front)) as (payload & rssi & ->);
    [intros ->; cbn in Hlen; lia|].
  exists payload, rssi, trailer; rewrite <- app_assoc; reflexivity.
Qed.

(** C1, as the driver has it: with RXBYTES reading n < 2 the receive
    operation returns None; with n >= 2 it burst-reads n bytes from the RX
    FIFO (header with the burst-read flag, then n zeros), and when these
    are bytes the packet returned has the first n-2 of them as payload, the
    second-to-last as RSSI index (in dBm: (index-256)/2 - 74 from 128 on,
    else index/2 - 74), the top bit of the last as checksum flag, and the
    low seven bits of the last as link quality whenever bit 6 of the last
    byte is clear. *)
Theorem received_packet_parsing (w w1 : World Dev) (n : Z) :
  _read_status_register xfer RXBYTES w = (Ok n, w1) ->
  (n < 2 -> _get_received_packet xfer w = (Ok None, w1))
  /\ (2 <= n ->
      forall buffer w2,
        _read_burst xfer RX n w1 = (Ok buffer, w2) ->
        Forall (fun v => 0 <= v < 256) buffer ->
        sent w2 = sent w1 ++ [Z.lor RX 0xC0 :: repeat 0 (Z.to_nat n)]
        /\ len buffer = n
        /\ exists payload rssi trailer packet,
            buffer = payload ++ [rssi; trailer]
            /\ len payload = n - 2
            /\ _get_received_packet xfer w = (Ok (Some packet), w2)
            /\ data packet = payload
            /\ _rssi_index packet = rssi
            /\ (rssi_dbm packet
                == if 128 <=? rssi then inject_Z (rssi - 256) / 2 - 74
                   else inject_Z rssi / 2 - 74)%Q
            /\ checksum_valid packet = Z.testbit trailer 7
            /\ (Z.testbit trailer 6 = false ->
                link_quality_indicator packet = Z.land trailer 0x7F)).
Proof.
  intros Hn; split; [apply _get_received_packet_none; exact Hn|].
  intros Hge buffer w2 Hburst Hbytes.
  assert (Hlen : len buffer = n).
  { rewrite _read_burst_run in Hburst; cbn zeta in Hburst.
    destruct (len _ =? n + 1) eqn:E; inversion Hburst as [[Hb Hw]].
    apply Z.eqb_eq in E; unfold len in *.
    destruct (reply xfer _ w1); cbn [skipn List.length] in *; lia. }
  destruct (last_two buffer) as (payload & rssi & trailer & ->);
    [unfold len in Hlen; lia|].
  destruct (_get_received_packet_parses _ _ _ _ _ _ _ Hn Hburst Hbytes)
    as (Hn2 & Hsent & Hrun).
  split; [exact Hsent | split; [exact Hlen|]].
  exists payload, rssi, trailer; eexists.
  split; [reflexivity | split; [lia | split; [exact Hrun|]]].
  cbn [data _rssi_index checksum_valid link_quality_indicator].
  apply Forall_app in Hbytes; destruct Hbytes as [_ Ht].
  inversion Ht as [|? ? Hr Ht']; subst.
  inversion Ht' as [|? ? Htr _]; subst.
  split; [reflexivity | split; [reflexivity | split; [|split]]].
  - unfold rssi_dbm, _RSSI_OFFSET_dB; cbn [_rssi_index].
    rewrite Z.geb_leb; destruct (128 <=? rssi); reflexivity.
  - apply byte_top_bit; exact Htr.
  - apply low_six_bits_are_low_seven.
Qed.

End DriverFacts.

(** ** Rounding *)

Lemma round_within_half (x : Q) :
  (Qabs (inject_Z (round x) - x) <= 1 # 2)%Q.
Proof.
  pose proof (Qfloor_le x) as Hlo.
  pose proof (Qlt_floor x) as Hhi.
  rewrite inject_Z_plus in Hhi; change (inject_Z 1) with 1%Q in Hhi.
  apply Qabs_Qle_condition; unfold round.
  set (f := inject_Z (Qfloor x)) in *.
  destruct (x - f ?= 1 # 2)%Q eqn:E.
  - apply Qeq_alt in E.
    destruct (Z.even (Qfloor x));
      rewrite ?inject_Z_plus; change (inject_Z 1) with 1%Q; fold f;
      split; lra.
  - apply Qlt_alt in E; fold f; split; lra.
  - apply Qgt_alt in E.
    rewrite inject_Z_plus; change (inject_Z 1) with 1%Q; fold f; split; lra.
Qed.

(** ** Frequency control word *)

Lemma fold_left_digits_app (values : list Z) (v : Z) :
  fold_left (fun acc b => acc * 256 + b) (values ++ [v]) 0
  = fold_left (fun acc b => acc * 256 + b) values 0 * 256 + v.
Proof. rewrite fold_left_app; reflexivity. Qed.

Lemma big_endian_digits_value (length : nat) :
  forall n, 0 <= n < 256 ^ Z.of_nat length ->
    fold_left (fun acc b => acc * 256 + b) (big_endian_digits length n) 0 = n.
Proof.
  induction length as [|k IH]; intros n Hn.
  - cbn in *; lia.
  - cbn [big_endian_digits]; rewrite fold_left_digits_app, IH.
    + pose proof (Z.div_mod n 256); lia.
    + rewrite Nat2Z.inj_succ, Z.pow_succ_r in Hn by lia.
      split; [apply Z.div_pos; lia | apply Z.div_lt_upper_bound; lia].
Qed.

Lemma big_endian_digits_bytes (length : nat) :
  forall n, Forall (fun v => 0 <= v < 256) (big_endian_digits length n).
Proof.
  induction length as [|k IH]; intros n; cbn [big_endian_digits].
  - constructor.
  - apply Forall_app; split; [apply IH|].
    constructor; [apply Z.mod_pos_bound; lia | constructor].
Qed.

Lemma int_from_bytes_to_bytes (length : nat) (n : Z) :
  0 <= n < 256 ^ Z.of_nat length ->
  exists values,
    int_to_bytes_big length n = Ok values
    /\ List.length values = length
    /\ int_from_bytes_big values = Ok n.
Proof.
  intros Hn; exists (big_endian_digits length n); split; [|split].
  - unfold int_to_bytes_big.
    replace (n <? 0) with false by (symmetry; apply Z.ltb_ge; lia).
    replace (256 ^ Z.of_nat length <=? n) with false
      by (symmetry; apply Z.leb_gt; lia).
    reflexivity.
  - clear Hn; revert n; induction length as [|k IH]; intros n;
      cbn [big_endian_digits]; [reflexivity|].
    rewrite length_app, IH; cbn [List.length]; lia.
  - unfold int_from_bytes_big.
    pose proof (big_endian_digits_bytes length n) as Hb.
    replace (forallb _ (big_endian_digits length n)) with true.
    + rewrite big_endian_digits_value by exact Hn; reflexivity.
    + symmetry; apply forallb_forall; intros v Hv.
      rewrite Forall_forall in Hb; specialize (Hb v Hv).
      apply andb_true_intro; split; [apply Z.leb_le | apply Z.ltb_lt]; lia.
Qed.

(** C6: for every frequency whose rounded control word fits in 24 bits,
    encoding yields three bytes, decoding them succeeds, and the decoded
    frequency differs from the given one by at most one step
    f_xosc / 2^16 of the control word. *)
Theorem frequency_round_trip_within_one_step (hertz : Q) :
  0 <= round (hertz / _FREQUENCY_CONTROL_WORD_HERTZ_FACTOR) < 2 ^ 24 ->
  exists control_word decoded,
    _hertz_to_frequency_control_word hertz = Ok control_word
    /\ List.length control_word = 3%nat
    /\ _frequency_control_word_to_hertz control_word = Ok decoded
    /\ (decoded
        == inject_Z (round (hertz / _FREQUENCY_CONTROL_WORD_HERTZ_FACTOR))
           * (_CRYSTAL_OSCILLATOR_FREQUENCY_HERTZ / 2 ^ 16))%Q
    /\ (Qabs (decoded - hertz)
        <= _CRYSTAL_OSCILLATOR_FREQUENCY_HERTZ / 2 ^ 16)%Q.
Proof.
  intros Hword.
  set (word := round (hertz / _FREQUENCY_CONTROL_WORD_HERTZ_FACTOR)) in *.
  destruct (int_from_bytes_to_bytes 3 word Hword) as (cw & Hto & Hlen & Hfrom).
  exists cw, (inject_Z word * _FREQUENCY_CONTROL_WORD_HERTZ_FACTOR)%Q.
  split; [exact Hto | split; [exact Hlen | split; [|split]]].
  - unfold _frequency_control_word_to_hertz; rewrite Hfrom; reflexivity.
  - reflexivity.
  - pose proof (round_within_half
                  (hertz / _FREQUENCY_CONTROL_WORD_HERTZ_FACTOR)) as Hr.
    fold word in Hr.
    set (factor := _FREQUENCY_CONTROL_WORD_HERTZ_FACTOR) in *.
    assert (Hfactor : (factor == 1625000 # 4096)%Q) by reflexivity.
    change (_CRYSTAL_OSCILLATOR_FREQUENCY_HERTZ / 2 ^ 16)%Q with factor.
    assert (Hq : (hertz == hertz / factor * factor)%Q).
    { field. rewrite Hfactor; discriminate. }
    apply Qabs_Qle_condition in Hr; apply Qabs_Qle_condition.
    set (y := (hertz / factor)%Q) in *.
    rewrite Hq at 1 2.
    clearbody y factor.
    assert (Hpos : (0 < factor)%Q) by (rewrite Hfactor; reflexivity).
    destruct Hr as [Hlo Hhi].
    assert (H1 : (0 <= (inject_Z word - y + (1 # 2)) * factor)%Q)
      by (apply Qmult_le_0_compat; lra).
    assert (H2 : (0 <= ((1 # 2) - (inject_Z word - y)) * factor)%Q)
      by (apply Qmult_le_0_compat; lra).
    split; lra.
Qed.

(** The decoded frequency is a binary64 number: the float product of the
    source computes it without error. *)
Lemma binary64_frequency_decode (word : Z) :
  0 <= word < 2 ^ 24 ->
  binary64 (inject_Z word * _FREQUENCY_CONTROL_WORD_HERTZ_FACTOR).
Proof.
  intros Hword; exists (word * 203125), (-9); split; [lia | split; [lia|]].
  unfold _FREQUENCY_CONTROL_WORD_HERTZ_FACTOR,
    _CRYSTAL_OSCILLATOR_FREQUENCY_HERTZ.
  rewrite inject_Z_mult; unfold Qeq; cbn; lia.
Qed.

(** ** Symbol rate *)

Ltac each_exponent e He :=
  let H := fresh in
  assert (H : e = 1 \/ e = 2 \/ e = 3 \/ e = 4 \/ e = 5 \/ e = 6 \/ e = 7
              \/ e = 8 \/ e = 9 \/ e = 10 \/ e = 11 \/ e = 12 \/ e = 13
              \/ e = 14 \/ e = 15 \/ e = 16) by lia;
  clear He;
  repeat (destruct H as [-> | H]); [..|subst e].

Ltac eval_inject_Z :=
  repeat match goal with
         | |- context [inject_Z ?z] =>
             tryif is_var z then fail
             else (let v := eval vm_compute in (inject_Z z) in
                   progress change (inject_Z z) with v)
         end.

Ltac dyadic n k e He :=
  exists n, k; split; [lia | split; [lia|]];
  each_exponent e He;
  unfold _symbol_rate_floating_point_to_real;
  change _CRYSTAL_OSCILLATOR_FREQUENCY_HERTZ with 26000000%Q;
  repeat rewrite inject_Z_mult; repeat rewrite inject_Z_plus;
  eval_inject_Z;
  repeat match goal with
         | |- context [Qpower 2 ?k] =>
             let v := eval vm_compute in (Qpower 2 k) in
             progress change (Qpower 2 k) with v
         end;
  first [lra | field].

(** Every product, quotient and difference that decoding a valid pair and
    encoding the result computes is a binary64 number (the integer
    [(256 + mantissa) * 2 ** exponent] included, which Python converts to a
    float before it multiplies): on these arguments the float operations of
    the source and the exact ones of this model agree. *)
Lemma binary64_symbol_rate_intermediates (mantissa exponent : Z) :
  0 <= mantissa <= 255 -> 1 <= exponent <= 16 ->
  let integer := inject_Z ((256 + mantissa) * 2 ^ exponent) in
  let real := _symbol_rate_floating_point_to_real mantissa exponent in
  let xosc := _CRYSTAL_OSCILLATOR_FREQUENCY_HERTZ in
  binary64 integer
  /\ binary64 (integer * xosc)
  /\ binary64 real
  /\ binary64 (real / xosc)
  /\ binary64 (real * 2 ^ 28)
  /\ binary64 (real * 2 ^ 28 / xosc)
  /\ binary64 (real * 2 ^ 28 / xosc / 2 ^ exponent)
  /\ binary64 (real * 2 ^ 28 / xosc / 2 ^ exponent - 256).
Proof.
  intros Hm He integer real xosc; subst integer real xosc.
  repeat split.
  - dyadic (256 + mantissa) exponent exponent He.
  - dyadic ((256 + mantissa) * 203125) (exponent + 7) exponent He.
  - dyadic ((256 + mantissa) * 203125) (exponent - 21) exponent He.
  - dyadic (256 + mantissa) (exponent - 28) exponent He.
  - dyadic ((256 + mantissa) * 203125) (exponent + 7) exponent He.
  - dyadic (256 + mantissa) exponent exponent He.
  - dyadic (256 + mantissa) 0 exponent He.
  - dyadic mantissa 0 exponent He.
Qed.

(** C5: encoding the rate decoded from a mantissa in 0..255 and an exponent
    in 1..16 gives back that mantissa and exponent; and a rate whose
    mantissa rounds to 256 -- the one halfway between mantissa 255 and the
    next power of two, for an exponent in 1..15 -- is encoded with the
    carry, as mantissa 0 and the next exponent. *)
Theorem symbol_rate_round_trip :
  (forall mantissa exponent,
      0 <= mantissa <= 255 -> 1 <= exponent <= 16 ->
      _symbol_rate_real_to_floating_point
        (_symbol_rate_floating_point_to_real mantissa exponent)
      = Ok (mantissa, exponent))
  /\ (forall exponent,
        1 <= exponent <= 15 ->
        round ((256 + (511 # 2)) - 256) = 256
        /\ _symbol_rate_real_to_floating_point
             ((256 + (511 # 2)) * 2 ^ exponent
              * _CRYSTAL_OSCILLATOR_FREQUENCY_HERTZ / 2 ^ 28)
           = Ok (0, exponent + 1)).
Proof.
  split.
  - intros mantissa exponent Hm He.
    assert (Hall :
        forallb
          (fun e =>
             forallb
               (fun m =>
                  match _symbol_rate_real_to_floating_point
                          (_symbol_rate_floating_point_to_real m e) with
                  | Ok (m', e') => (m' =? m) && (e' =? e)
                  | Raise _ => false
                  end)
               (map (fun i => 0 + Z.of_nat i) (seq 0 256)))
          (map (fun i => 1 + Z.of_nat i) (seq 0 16)) = true)
      by (vm_compute; reflexivity).
    rewrite forallb_forall in Hall.
    assert (Hin_e : In exponent (map (fun i => 1 + Z.of_nat i) (seq 0 16))).
    { apply in_map_iff; exists (Z.to_nat (exponent - 1)); split; [lia|].
      apply in_seq; lia. }
    specialize (Hall exponent Hin_e); rewrite forallb_forall in Hall.
    assert (Hin_m : In mantissa (map (fun i => 0 + Z.of_nat i) (seq 0 256))).
    { apply in_map_iff; exists (Z.to_nat mantissa); split; [lia|].
      apply in_seq; lia. }
    specialize (Hall mantissa Hin_m).
    destruct (_symbol_rate_real_to_floating_point _) as [[m' e']|];
      [|discriminate].
    apply andb_prop in Hall; destruct Hall as [H1 H2].
    apply Z.eqb_eq in H1, H2; subst; reflexivity.
  - intros exponent He; split; [reflexivity|].
    assert (H : exponent = 1 \/ exponent = 2 \/ exponent = 3 \/ exponent = 4
                \/ exponent = 5 \/ exponent = 6 \/ exponent = 7
                \/ exponent = 8 \/ exponent = 9 \/ exponent = 10
                \/ exponent = 11 \/ exponent = 12 \/ exponent = 13
                \/ exponent = 14 \/ exponent = 15) by lia.
    repeat (destruct H as [-> | H]; [vm_compute; reflexivity|]).
    subst; vm_compute; reflexivity.
Qed.

(** ** The driver on the data sheet's addresses *)

(** C2: the power-amplifier setter does not keep the other bits of FREND0.
    With FREND0 reading 0x10 (bit 4 set, the PA_POWER field in bits 2:0
    clear), setting index 1 sends the read of FREND0 and then the burst
    write of the byte 0x01: bit 4, outside the field, has changed. *)
Theorem power_amplifier_setter_drops_other_bits :
  let w := start [[0x0F; 0x10]; [0x0F; 0x0F]] in
  _read_single_byte scripted (@FREND0 datasheet) w
  = (Ok 0x10, mkWorld [[0x0F; 0x0F]] [[0xA2; 0]])
  /\ _set_power_amplifier_setting_index (addresses := datasheet) scripted 1 w
     = (Ok tt, mkWorld [] [[0xA2; 0]; [0x62; 0x01]])
  /\ Z.testbit 0x10 4 = true
  /\ Z.testbit 0x01 4 = false
  /\ Z.testbit 0x07 4 = false
  /\ ~ same_outside 0x07 0x10 0x01
  /\ ~ rewrites scripted
         (_set_power_amplifier_setting_index (addresses := datasheet)
            scripted 1)
         (@FREND0 datasheet) 0x07.
Proof.
  intros w.
  assert (Hdiff : ~ same_outside 0x07 0x10 0x01)
    by (unfold same_outside; vm_compute; discriminate).
  repeat split; try reflexivity; try exact Hdiff.
  intros H.
  destruct (H w (mkWorld [[0x0F; 0x0F]] [[0xA2; 0]]) 0x10 ltac:(lia)
              eq_refl) as (b' & Hsent & Hsame).
  vm_compute in Hsent.
  assert (b' = 1) by congruence; subst b'.
  exact (Hdiff Hsame).
Qed.

(** The receive operation keeps six, not seven, low bits of the last byte
    as link quality.  With RXBYTES reading 5 and the RX FIFO holding
    0x41 0x42 0x43 0x80 0xEA, the packet has the payload 0x41 0x42 0x43,
    RSSI index 0x80 (-138 dBm) and a valid checksum, but link quality 0x2A
    where the low seven bits of 0xEA are 0x6A. *)
Lemma received_packet_link_quality_loses_bit_6 :
  let w := start [[0x0F; 5]; [0x0F; 0x41; 0x42; 0x43; 0x80; 0xEA]] in
  exists packet,
    _get_received_packet (addresses := datasheet) scripted w
    = (Ok (Some packet),
       mkWorld [] [[0xFB; 0]; [0xFF; 0; 0; 0; 0; 0]])
    /\ data packet = [0x41; 0x42; 0x43]
    /\ _rssi_index packet = 0x80
    /\ (rssi_dbm packet == -138)%Q
    /\ checksum_valid packet = true
    /\ link_quality_indicator packet = 0x2A
    /\ Z.land 0xEA (Z.ones 7) = 0x6A.
Proof.
  intros w; eexists; split; [vm_compute; reflexivity|].
  repeat split.
Qed.

(** The packet of section 8 of the specification: RXBYTES reads 5 and the
    RX FIFO holds 0x41 0x42 0x43 0x80 0x2A.  The payload is 0x41 0x42 0x43,
    the RSSI is -138 dBm and the link quality 0x2A, but the checksum flag
    is false: the top bit of 0x2A is clear. *)
Lemma received_packet_example_checksum_not_valid :
  let w := start [[0x0F; 5]; [0x0F; 0x41; 0x42; 0x43; 0x80; 0x2A]] in
  exists packet,
    _get_received_packet (addresses := datasheet) scripted w
    = (Ok (Some packet),
       mkWorld [] [[0xFB; 0]; [0xFF; 0; 0; 0; 0; 0]])
    /\ data packet = [0x41; 0x42; 0x43]
    /\ (rssi_dbm packet == -138)%Q
    /\ link_quality_indicator packet = 0x2A
    /\ Z.testbit 0x2A 7 = false
    /\ checksum_valid packet <> true.
Proof.
  intros w; eexists; split; [vm_compute; reflexivity|].
  repeat split; discriminate.
Qed.

Example received_packet_too_short :
  _get_received_packet (addresses := datasheet) scripted (start [[0x0F; 1]])
  = (Ok None, mkWorld [] [[0xFB; 0]]).
Proof. reflexivity. Qed.

(** ** Runs on the scripted bus *)

Lemma write_burst_raises_iff_echo_mismatch_witness :
  let w := start [[0x0F; 0x0F; 0x1F]] in
  _write_burst scripted 0x3F [1; 2] w
  = (Raise AssertionError, mkWorld [] [[0x7F; 1; 2]])
  /\ fst (_write_burst scripted 0x3F [1; 2] (start [[0x0F; 0x0F; 0x0F]]))
     = Ok tt.
Proof.
  intros w.
  destruct (write_burst_raises_iff_echo_mismatch scripted 0x3F [1; 2] w)
    as (Hworld & Hraise & _).
  destruct (write_burst_raises_iff_echo_mismatch scripted 0x3F [1; 2]
              (start [[0x0F; 0x0F; 0x0F]])) as (_ & _ & Hok).
  split.
  - apply injective_projections; [|exact Hworld].
    apply Hraise; right; exists 0x1F; split.
    + right; left; reflexivity.
    + discriminate.
  - apply Hok; split; [reflexivity|].
    intros v [<- | [<- | []]]; reflexivity.
Defined.

Lemma set_packet_length_bytes_accepts_1_to_255_witness :
  set_packet_length_bytes (addresses := datasheet) scripted 0 (start [])
  = (Raise AssertionError, start [])
  /\ set_packet_length_bytes (addresses := datasheet) scripted 256 (start [])
     = (Raise AssertionError, start [])
  /\ sent (snd (set_packet_length_bytes (addresses := datasheet) scripted 20
                  (start [[0x0F; 0x0F]])))
     = [[0x46; 20]].
Proof.
  split; [|split].
  - apply (set_packet_length_bytes_accepts_1_to_255
             (addresses := datasheet) scripted 0 (start [])).
    left; lia.
  - apply (set_packet_length_bytes_accepts_1_to_255
             (addresses := datasheet) scripted 256 (start [])).
    right; lia.
  - apply (set_packet_length_bytes_accepts_1_to_255
             (addresses := datasheet) scripted 20 (start [[0x0F; 0x0F]])).
    lia.
Defined.

(** Variable mode, configured length 20, a payload of 10 bytes: the TX FIFO
    write has 11 bytes after its header, the first of them 10. *)
Lemma transmit_frames_by_packet_length_mode_witness :
  let payload := [1; 2; 3; 4; 5; 6; 7; 8; 9; 10] in
  let w := start [[0x0F; 0x01]; [0x0F; 20]; [0x0F; 0x01]; [0x0F];
                  [0x0F; 0x0F; 0x0F; 0x0F; 0x0F; 0x0F; 0x0F; 0x0F; 0x0F;
                   0x0F; 0x0F; 0x0F];
                  [0x0F]] in
  exists rest,
    sent (snd (transmit (addresses := datasheet) (options := length_config)
                 scripted payload w))
    = [[0x88; 0]; [0x86; 0]; [0xF5; 0]; [0x3B]]
      ++ (0x7F :: 10 :: payload) :: rest.
Proof.
  intros payload w.
  set (tail4 := [[0x0F; 0x0F; 0x0F; 0x0F; 0x0F; 0x0F; 0x0F; 0x0F; 0x0F;
                  0x0F; 0x0F; 0x0F]; [0x0F]]).
  destruct (transmit_frames_by_packet_length_mode
              (addresses := datasheet) (options := length_config)
              scripted payload w
              (mkWorld ([0x0F; 20] :: [0x0F; 0x01] :: [0x0F] :: tail4)
                 [[0x88; 0]])
              (mkWorld ([0x0F; 0x01] :: [0x0F] :: tail4)
                 [[0x88; 0]; [0x86; 0]])
              1 20 eq_refl eq_refl ltac:(lia) ltac:(discriminate))
    as [Hvariable _].
  destruct (Hvariable eq_refl) as (_ & _ & Hframed).
  destruct (Hframed ltac:(discriminate) ltac:(cbv; discriminate))
    as [_ Hwrite].
  destruct (Hwrite
              (mkWorld ([0x0F] :: tail4) [[0x88; 0]; [0x86; 0]; [0xF5; 0]])
              (mkWorld tail4 [[0x88; 0]; [0x86; 0]; [0xF5; 0]; [0x3B]])
              eq_refl eq_refl) as [_ Hsent].
  exact Hsent.
Defined.

Lemma transmit_not_idle_raises_before_any_write_witness :
  let w := start [[0x0F; 0x01]; [0x0F; 20]; [0x0F; 0x0D]] in
  transmit (addresses := datasheet) (options := length_config)
    scripted [1; 2; 3] w
  = (Raise (Exception "device must be idle before transmission"),
     mkWorld [] [[0x88; 0]; [0x86; 0]; [0xF5; 0]]).
Proof.
  intros w.
  refine (proj1 (transmit_not_idle_raises_before_any_write
                   (addresses := datasheet) (options := length_config)
                   scripted [1; 2; 3] w
                   (mkWorld [[0x0F; 20]; [0x0F; 0x0D]] [[0x88; 0]])
                   (mkWorld [[0x0F; 0x0D]] [[0x88; 0]; [0x86; 0]])
                   (mkWorld [] [[0x88; 0]; [0x86; 0]; [0xF5; 0]])
                   1 20 RX_STATE eq_refl eq_refl _ eq_refl _)).
  - split.
    + intros _; split; [discriminate | split; cbv; discriminate].
    + intros H; exfalso; apply H; reflexivity.
  - discriminate.
Defined.

(** A body that raises inside the scope: the release still runs. *)
Lemma asynchronous_transmission_always_releases_witness :
  let w := start [[0x0F; 0x05]; [0x0F; 0x0F]; [0x0F];
                  [0x0F]; [0x0F; 0x35]; [0x0F; 0x0F]] in
  let body := fun _ : Pin =>
                raise (A := unit) (Exception "signal source failed") in
  asynchronous_transmission (addresses := datasheet) scripted body w
  = (Raise (Exception "signal source failed"),
     mkWorld [] [[0x88; 0]; [0x48; 0x35]; [0x35];
                 [0x36]; [0x88; 0]; [0x48; 0x05]]).
Proof.
  intros w body.
  destruct (asynchronous_transmission_always_releases
              (addresses := datasheet) scripted body w
              (mkWorld [[0x0F]; [0x0F]; [0x0F; 0x35]; [0x0F; 0x0F]]
                 [[0x88; 0]; [0x48; 0x35]])
              (mkWorld [[0x0F]; [0x0F; 0x35]; [0x0F; 0x0F]]
                 [[0x88; 0]; [0x48; 0x35]; [0x35]])
              (mkWorld [[0x0F]; [0x0F; 0x35]; [0x0F; 0x0F]]
                 [[0x88; 0]; [0x48; 0x35]; [0x35]])
              (Raise (Exception "signal source failed"))
              eq_refl eq_refl eq_refl) as (Hworld & Houtcome & _).
  apply injective_projections.
  - apply Houtcome; reflexivity.
  - rewrite Hworld; reflexivity.
Defined.

Lemma received_packet_parsing_witness :
  let w := start [[0x0F; 5]; [0x0F; 0x41; 0x42; 0x43; 0x80; 0x2A]] in
  let w2 : World Script := mkWorld [] [[0xFB; 0]; [0xFF; 0; 0; 0; 0; 0]] in
  sent w2 = [[0xFB; 0]] ++ [[0xFF; 0; 0; 0; 0; 0]]
  /\ len [0x41; 0x42; 0x43; 0x80; 0x2A] = 5
  /\ _get_received_packet (addresses := datasheet) scripted
       (start [[0x0F; 1]])
     = (Ok None, mkWorld [] [[0xFB; 0]]).
Proof.
  intros w w2.
  destruct (received_packet_parsing (addresses := datasheet) scripted
              w (mkWorld [[0x0F; 0x41; 0x42; 0x43; 0x80; 0x2A]] [[0xFB; 0]])
              5 eq_refl) as [_ Hpacket].
  destruct (Hpacket ltac:(lia) [0x41; 0x42; 0x43; 0x80; 0x2A] w2 eq_refl)
    as (Hsent & Hlen & _).
  { repeat constructor; lia. }
  split; [exact Hsent | split; [exact Hlen|]].
  apply (received_packet_parsing (addresses := datasheet) scripted
           (start [[0x0F; 1]]) (mkWorld [] [[0xFB; 0]]) 1 eq_refl).
  lia.
Defined.


Lemma frequency_round_trip_within_one_step_witness :
  exists control_word decoded,
    _hertz_to_frequency_control_word 433.92e6 = Ok control_word
    /\ control_word = [0x10; 0xB0; 0x71]
    /\ _frequency_control_word_to_hertz control_word = Ok decoded
    /\ (Qabs (decoded - 433.92e6)
        <= _CRYSTAL_OSCILLATOR_FREQUENCY_HERTZ / 2 ^ 16)%Q.
Proof.
  destruct (frequency_round_trip_within_one_step 433.92e6)
    as (control_word & decoded & Hencode & _ & Hdecode & _ & Hclose).
  { vm_compute; split; [discriminate | reflexivity]. }
  exists control_word, decoded.
  split; [exact Hencode | split; [|split; assumption]].
  vm_compute in Hencode; congruence.
Defined.

Lemma symbol_rate_round_trip_witness :
  _symbol_rate_real_to_floating_point
    (_symbol_rate_floating_point_to_real 131 4)
  = Ok (131, 4)
  /\ _symbol_rate_real_to_floating_point
       ((256 + (511 # 2)) * 2 ^ 4
        * _CRYSTAL_OSCILLATOR_FREQUENCY_HERTZ / 2 ^ 28)
     = Ok (0, 5).
Proof.
  destruct symbol_rate_round_trip as [Hpair Hcarry].
  split.
  - apply Hpair; lia.
  - apply (Hcarry 4); lia.
Defined.

(** Fixed mode, configured length 8 (section 8 of the specification): a
    payload of 7 bytes is refused after the two configuration reads; a
    payload of 8 bytes goes to the TX FIFO as it is. *)
Example transmit_fixed_length_mismatch :
  transmit (addresses := datasheet) (options := length_config) scripted
    [1; 2; 3; 4; 5; 6; 7] (start [[0x0F; 0x00]; [0x0F; 8]])
  = (Raise (ValueError "expected payload length"),
     mkWorld [] [[0x88; 0]; [0x86; 0]]).
Proof. reflexivity. Qed.

Example transmit_fixed_length_verbatim :
  transmit (addresses := datasheet) (options := length_config) scripted
    [1; 2; 3; 4; 5; 6; 7; 8]
    (start [[0x0F; 0x00]; [0x0F; 8]; [0x0F; 0x01]; [0x0F];
            [0x0F; 0x0F; 0x0F; 0x0F; 0x0F; 0x0F; 0x0F; 0x0F; 0x0F];
            [0x0F]])
  = (Ok tt,
     mkWorld [] [[0x88; 0]; [0x86; 0]; [0xF5; 0]; [0x3B];
                 [0x7F; 1; 2; 3; 4; 5; 6; 7; 8]; [0x35]]).
Proof. reflexivity. Qed.

Example transmit_variable_length_empty :
  transmit (addresses := datasheet) (options := length_config) scripted
    [] (start [[0x0F; 0x01]; [0x0F; 20]])
  = (Raise (ValueError "empty payload"), mkWorld [] [[0x88; 0]; [0x86; 0]]).
Proof. reflexivity. Qed.

Example transmit_variable_length_too_long :
  transmit (addresses := datasheet) (options := length_config) scripted
    [1; 2; 3] (start [[0x0F; 0x01]; [0x0F; 2]])
  = (Raise (ValueError "payload exceeds maximum payload length"),
     mkWorld [] [[0x88; 0]; [0x86; 0]]).
Proof. reflexivity. Qed.

(** * More of the driver *)

(** ** Rounding, continued *)

Lemma round_comp (x y : Q) : (x == y)%Q -> round x = round y.
Proof.
  intros H; unfold round.
  rewrite (Qfloor_comp x y H).
  assert (Hc : (x - inject_Z (Qfloor y) ?= 1 # 2)%Q
               = (y - inject_Z (Qfloor y) ?= 1 # 2)%Q)
    by (apply Qcompare_comp; [rewrite H|]; reflexivity).
  rewrite Hc; reflexivity.
Qed.

Lemma round_inject_Z (z : Z) : round (inject_Z z) = z.
Proof.
  unfold round; rewrite Qfloor_Z.
  set (q := inject_Z z).
  assert (H : (q - q ?= 1 # 2)%Q = Lt) by (rewrite <- Qlt_alt; lra).
  rewrite H; reflexivity.
Qed.

Lemma round_bounds (x : Q) : Qfloor x <= round x <= Qfloor x + 1.
Proof.
  unfold round.
  destruct (x - inject_Z (Qfloor x) ?= 1 # 2)%Q;
    [destruct (Z.even (Qfloor x))| |]; lia.
Qed.

Lemma round_monotone (x y : Q) : (x <= y)%Q -> round x <= round y.
Proof.
  intros Hxy.
  pose proof (Qfloor_resp_le x y Hxy) as Hfloor.
  pose proof (round_bounds x) as Hx.
  pose proof (round_bounds y) as Hy.
  destruct (Z.eq_dec (Qfloor x) (Qfloor y)) as [Heq | Hne]; [|lia].
  clear Hx Hy Hfloor; unfold round; rewrite Heq.
  set (f := inject_Z (Qfloor y)).
  pose proof (Qeq_alt (x - f) (1 # 2)) as Hxe.
  pose proof (Qlt_alt (x - f) (1 # 2)) as Hxl.
  pose proof (Qgt_alt (x - f) (1 # 2)) as Hxg.
  pose proof (Qeq_alt (y - f) (1 # 2)) as Hye.
  pose proof (Qlt_alt (y - f) (1 # 2)) as Hyl.
  pose proof (Qgt_alt (y - f) (1 # 2)) as Hyg.
  destruct (x - f ?= 1 # 2)%Q; destruct (y - f ?= 1 # 2)%Q;
    try (destruct (Z.even (Qfloor y))); try lia; exfalso;
    repeat match goal with
           | H : _ <-> ?c = ?c |- _ => apply proj2 in H; specialize (H eq_refl)
           | H : _ <-> _ |- _ => clear H
           end;
    lra.
Qed.

(** ** Frequency control word, continued *)

Lemma fold_left_digits_bound (values : list Z) :
  Forall (fun v => 0 <= v < 256) values ->
  0 <= fold_left (fun acc b => acc * 256 + b) values 0
  < 256 ^ Z.of_nat (List.length values).
Proof.
  induction values as [|v values IH] using rev_ind; intros Hb.
  - cbn; lia.
  - apply Forall_app in Hb; destruct Hb as [Hvalues Hv].
    inversion Hv as [|? ? Hv0 _]; subst.
    specialize (IH Hvalues).
    rewrite fold_left_digits_app, length_app; cbn [List.length].
    rewrite Nat2Z.inj_add, Z.pow_add_r by lia.
    change (256 ^ Z.of_nat 1) with 256; nia.
Qed.

Lemma big_endian_digits_of_value (values : list Z) :
  Forall (fun v => 0 <= v < 256) values ->
  big_endian_digits (List.length values)
    (fold_left (fun acc b => acc * 256 + b) values 0)
  = values.
Proof.
  induction values as [|v values IH] using rev_ind; intros Hb.
  - reflexivity.
  - apply Forall_app in Hb; destruct Hb as [Hvalues Hv].
    inversion Hv as [|? ? Hv0 _]; subst.
    rewrite fold_left_digits_app, length_app; cbn [List.length].
    rewrite Nat.add_1_r; cbn [big_endian_digits].
    replace ((fold_left (fun acc b => acc * 256 + b) values 0 * 256 + v)
             / 256)
      with (fold_left (fun acc b => acc * 256 + b) values 0)
      by (apply Z.div_unique with v; lia).
    replace ((fold_left (fun acc b => acc * 256 + b) values 0 * 256 + v)
             mod 256) with v
      by (apply Z.mod_unique
            with (fold_left (fun acc b => acc * 256 + b) values 0); lia).
    rewrite (IH Hvalues); reflexivity.
Qed.

Lemma round_of_decoded (word : Z) :
  round (inject_Z word * _FREQUENCY_CONTROL_WORD_HERTZ_FACTOR
         / _FREQUENCY_CONTROL_WORD_HERTZ_FACTOR)
  = word.
Proof.
  rewrite <- (round_inject_Z word) at 2.
  apply round_comp.
  assert (Hfactor : (_FREQUENCY_CONTROL_WORD_HERTZ_FACTOR == 1625000 # 4096)%Q)
    by reflexivity.
  field; rewrite Hfactor; discriminate.
Qed.

(** X1: decoding any three bytes to a frequency and encoding that frequency
    gives the three bytes back. *)
Theorem frequency_control_word_round_trip (control_word : list Z) :
  List.length control_word = 3%nat ->
  Forall (fun v => 0 <= v < 256) control_word ->
  exists hertz,
    _frequency_control_word_to_hertz control_word = Ok hertz
    /\ _hertz_to_frequency_control_word hertz = Ok control_word.
Proof.
  intros Hlen Hbytes.
  unfold _frequency_control_word_to_hertz, int_from_bytes_big.
  rewrite (forallb_byte_true _ Hbytes).
  eexists; split; [reflexivity|].
  unfold _hertz_to_frequency_control_word.
  rewrite round_of_decoded.
  pose proof (fold_left_digits_bound _ Hbytes) as Hbound.
  rewrite Hlen in Hbound.
  unfold int_to_bytes_big.
  replace (_ <? 0) with false by (symmetry; apply Z.ltb_ge; lia).
  replace (256 ^ Z.of_nat 3 <=? _) with false
    by (symmetry; apply Z.leb_gt; lia).
  rewrite <- Hlen at 1.
  rewrite (big_endian_digits_of_value _ Hbytes); reflexivity.
Qed.

Lemma frequency_control_word_round_trip_witness :
  _frequency_control_word_to_hertz [0x10; 0xB0; 0x71]
  = Ok (inject_Z 0x10B071 * _FREQUENCY_CONTROL_WORD_HERTZ_FACTOR)%Q
  /\ exists hertz,
      _frequency_control_word_to_hertz [0x10; 0xB0; 0x71] = Ok hertz
      /\ _hertz_to_frequency_control_word hertz = Ok [0x10; 0xB0; 0x71].
Proof.
  split; [reflexivity|].
  apply frequency_control_word_round_trip; [reflexivity|].
  repeat constructor; lia.
Defined.

(** What the encoder returns is the big-endian form of the rounded word. *)
Lemma encoded_control_word_value (hertz : Q) (control_word : list Z) :
  _hertz_to_frequency_control_word hertz = Ok control_word ->
  int_from_bytes_big control_word
  = Ok (round (hertz / _FREQUENCY_CONTROL_WORD_HERTZ_FACTOR)).
Proof.
  unfold _hertz_to_frequency_control_word.
  set (word := round (hertz / _FREQUENCY_CONTROL_WORD_HERTZ_FACTOR)).
  intros H.
  assert (Hrange : 0 <= word < 256 ^ Z.of_nat 3).
  { unfold int_to_bytes_big in H.
    destruct (word <? 0) eqn:E1; [discriminate H|].
    destruct (256 ^ Z.of_nat 3 <=? word) eqn:E2; [discriminate H|].
    apply Z.ltb_ge in E1; apply Z.leb_gt in E2; lia. }
  destruct (int_from_bytes_to_bytes 3 word Hrange) as (values & Hto & _ & Hfrom).
  rewrite H in Hto; injection Hto as <-; exact Hfrom.
Qed.

(** X2: a higher frequency never gets a lower control word: of two
    frequencies the encoder accepts, the bytes of the higher one are, read
    as a big-endian integer, at least those of the lower one. *)
Theorem frequency_control_word_monotone
    (low high : Q) (control_word_low control_word_high : list Z) :
  (low <= high)%Q ->
  _hertz_to_frequency_control_word low = Ok control_word_low ->
  _hertz_to_frequency_control_word high = Ok control_word_high ->
  exists word_low word_high,
    int_from_bytes_big control_word_low = Ok word_low
    /\ int_from_bytes_big control_word_high = Ok word_high
    /\ word_low <= word_high.
Proof.
  intros H Hlow Hhigh.
  exists (round (low / _FREQUENCY_CONTROL_WORD_HERTZ_FACTOR)),
    (round (high / _FREQUENCY_CONTROL_WORD_HERTZ_FACTOR)).
  split; [exact (encoded_control_word_value _ _ Hlow)|].
  split; [exact (encoded_control_word_value _ _ Hhigh)|].
  apply round_monotone.
  assert (Hfactor : (_FREQUENCY_CONTROL_WORD_HERTZ_FACTOR == 1625000 # 4096)%Q)
    by reflexivity.
  unfold Qdiv; apply Qmult_le_compat_r; [exact H|].
  rewrite Hfactor; discriminate.
Qed.

Lemma frequency_control_word_monotone_witness :
  _hertz_to_frequency_control_word 433.92e6 = Ok [0x10; 0xB0; 0x71]
  /\ _hertz_to_frequency_control_word 868e6 = Ok [0x21; 0x62; 0x76]
  /\ exists word_low word_high,
      int_from_bytes_big [0x10; 0xB0; 0x71] = Ok word_low
      /\ int_from_bytes_big [0x21; 0x62; 0x76] = Ok word_high
      /\ word_low <= word_high.
Proof.
  split; [vm_compute; reflexivity|].
  split; [vm_compute; reflexivity|].
  apply (frequency_control_word_monotone 433.92e6 868e6).
  - unfold Qle; cbn; lia.
  - vm_compute; reflexivity.
  - vm_compute; reflexivity.
Defined.

(** ** Symbol rate, continued *)

Ltac eval_Qpower2 :=
  repeat match goal with
         | |- context [Qpower 2 ?k] =>
             lazymatch k with
             | Zpos _ =>
                 let v := eval vm_compute in (Qpower 2 k) in
                 progress change (Qpower 2 k) with v
             end
         | H : context [Qpower 2 ?k] |- _ =>
             lazymatch k with
             | Zpos _ =>
                 let v := eval vm_compute in (Qpower 2 k) in
                 progress change (Qpower 2 k) with v in H
             end
         end.

Ltac eval_Qinv :=
  unfold Qdiv in *;
  repeat match goal with
         | |- context [Qinv ?c] =>
             lazymatch c with
             | Qmake (Zpos _) _ =>
                 let v := eval vm_compute in (Qinv c) in
                 progress change (Qinv c) with v
             end
         | H : context [Qinv ?c] |- _ =>
             lazymatch c with
             | Qmake (Zpos _) _ =>
                 let v := eval vm_compute in (Qinv c) in
                 progress change (Qinv c) with v in H
             end
         end.

(** Brings the constants of the converters into a form [lra] reads. *)
Ltac converter_constants :=
  change _CRYSTAL_OSCILLATOR_FREQUENCY_HERTZ with 26000000%Q in *;
  eval_Qpower2; eval_Qinv.

(** What a successful run of the encoder went through. *)
Lemma symbol_rate_encoder_inversion (real : Q) (mantissa exponent : Z) :
  _symbol_rate_real_to_floating_point real = Ok (mantissa, exponent) ->
  let e0 := Qlog2_floor (real / _CRYSTAL_OSCILLATOR_FREQUENCY_HERTZ * 2 ^ 20) in
  let m0 := round (real * 2 ^ 28 / _CRYSTAL_OSCILLATOR_FREQUENCY_HERTZ
                   / 2 ^ e0 - 256) in
  (0 < real)%Q
  /\ ((m0 = 256 /\ mantissa = 0 /\ exponent = e0 + 1)
      \/ (m0 <> 256 /\ mantissa = m0 /\ exponent = e0))
  /\ 0 < exponent <= 16
  /\ mantissa <= 256.
Proof.
  intros H e0 m0.
  unfold _symbol_rate_real_to_floating_point, math_floor, logreal_add,
    math_log2, Qlt_bool in H; cbn [antilog] in H.
  fold e0 in H; fold m0 in H.
  destruct (Qle_bool real 0) eqn:Epos; cbn [negb] in H; [discriminate|].
  assert (Hpos : (0 < real)%Q).
  { apply Qnot_le_lt; intros Hle; apply Qle_bool_iff in Hle; congruence. }
  split; [exact Hpos|].
  destruct (m0 =? 256) eqn:Em.
  - apply Z.eqb_eq in Em.
    destruct ((0 <? e0 + 1) && (e0 + 1 <=? 2 ^ 4)) eqn:Ee; cbn [negb] in H;
      [|discriminate].
    destruct (0 <=? 2 ^ 8) eqn:E8; cbn [negb] in H; [|discriminate].
    inversion H; subst mantissa exponent.
    apply andb_prop in Ee; destruct Ee as [E1 E2].
    apply Z.ltb_lt in E1; apply Z.leb_le in E2.
    change (2 ^ 4) with 16 in E2.
    split; [left; auto | split; lia].
  - apply Z.eqb_neq in Em.
    destruct ((0 <? e0) && (e0 <=? 2 ^ 4)) eqn:Ee; cbn [negb] in H;
      [|discriminate].
    destruct (m0 <=? 2 ^ 8) eqn:E8; cbn [negb] in H; [|discriminate].
    inversion H; subst mantissa exponent.
    apply andb_prop in Ee; destruct Ee as [E1 E2].
    apply Z.ltb_lt in E1; apply Z.leb_le in E2; apply Z.leb_le in E8.
    change (2 ^ 4) with 16 in E2; change (2 ^ 8) with 256 in E8.
    split; [right; auto | split; lia].
Qed.

(** The scaled rate lies between 256 and 512 steps of the exponent the
    encoder picks. *)
Lemma symbol_rate_scaled_between (real : Q) :
  (0 < real)%Q ->
  let e0 := Qlog2_floor (real / _CRYSTAL_OSCILLATOR_FREQUENCY_HERTZ * 2 ^ 20) in
  let x := (real * 2 ^ 28 / _CRYSTAL_OSCILLATOR_FREQUENCY_HERTZ / 2 ^ e0)%Q in
  (256 <= x /\ x < 512)%Q.
Proof.
  intros Hpos e0 x.
  assert (Hy : (0 < real / _CRYSTAL_OSCILLATOR_FREQUENCY_HERTZ * 2 ^ 20)%Q).
  { clear e0 x; converter_constants; lra. }
  destruct (Qlog2_floor_spec _ Hy) as [Hlo Hhi]; fold e0 in Hlo, Hhi.
  rewrite Qpower_plus in Hhi by discriminate.
  assert (HP : (0 < 2 ^ e0)%Q) by (apply Qpower_0_lt; reflexivity).
  subst x; set (P := (2 ^ e0)%Q) in *; clearbody P; clear e0.
  split.
  - apply Qle_shift_div_l; [exact HP | converter_constants; lra].
  - apply Qlt_shift_div_r; [exact HP | converter_constants; lra].
Qed.

(** The rates the encoder accepts. *)
Lemma symbol_rate_accepted_rates (real : Q) (mantissa exponent : Z) :
  _symbol_rate_real_to_floating_point real = Ok (mantissa, exponent) ->
  (_CRYSTAL_OSCILLATOR_FREQUENCY_HERTZ / 2 ^ 20 <= real)%Q
  /\ (real < _CRYSTAL_OSCILLATOR_FREQUENCY_HERTZ / 2 ^ 3)%Q.
Proof.
  intros H.
  destruct (symbol_rate_encoder_inversion _ _ _ H) as (Hpos & Hcase & He & _).
  cbv zeta in Hcase.
  set (e0 := Qlog2_floor
               (real / _CRYSTAL_OSCILLATOR_FREQUENCY_HERTZ * 2 ^ 20)) in *.
  assert (Hy : (0 < real / _CRYSTAL_OSCILLATOR_FREQUENCY_HERTZ * 2 ^ 20)%Q).
  { clear - Hpos; converter_constants; lra. }
  destruct (Qlog2_floor_spec _ Hy) as [Hylo Hyhi]; fold e0 in Hylo, Hyhi.
  assert (He0 : 0 <= e0 <= 16)
    by (destruct Hcase as [(_ & _ & ->) | (_ & _ & ->)]; lia).
  assert (Hone : (2 ^ 0 <= 2 ^ e0)%Q)
    by (apply Qpower_le_compat_l; [lia | discriminate]).
  assert (Htop : (2 ^ (e0 + 1) <= 2 ^ 17)%Q)
    by (apply Qpower_le_compat_l; [lia | discriminate]).
  change (2 ^ 0)%Q with 1%Q in Hone.
  clear - Hylo Hyhi Hone Htop.
  set (P := (2 ^ e0)%Q) in *; set (P' := (2 ^ (e0 + 1))%Q) in *.
  clearbody P P'; clear e0.
  converter_constants; split; lra.
Qed.

(** X3: whatever rate the encoder accepts, the mantissa it returns fits the
    8-bit register (0..255, after the carry), the exponent is in 1..16, and
    the rate lies between f_xosc / 2^20 and f_xosc / 2^3. *)
Theorem symbol_rate_encoder_range (real : Q) (mantissa exponent : Z) :
  _symbol_rate_real_to_floating_point real = Ok (mantissa, exponent) ->
  0 <= mantissa <= 255
  /\ 1 <= exponent <= 16
  /\ (_CRYSTAL_OSCILLATOR_FREQUENCY_HERTZ / 2 ^ 20 <= real)%Q
  /\ (real < _CRYSTAL_OSCILLATOR_FREQUENCY_HERTZ / 2 ^ 3)%Q.
Proof.
  intros H.
  destruct (symbol_rate_encoder_inversion _ _ _ H) as (Hpos & Hcase & He & Hm).
  destruct (symbol_rate_scaled_between real Hpos) as [Hlo Hhi].
  cbv zeta in Hcase, Hlo, Hhi.
  set (e0 := Qlog2_floor
               (real / _CRYSTAL_OSCILLATOR_FREQUENCY_HERTZ * 2 ^ 20)) in *.
  set (x := (real * 2 ^ 28 / _CRYSTAL_OSCILLATOR_FREQUENCY_HERTZ / 2 ^ e0)%Q)
    in *.
  assert (Hm0 : 0 <= round (x - 256) <= 256).
  { split.
    - rewrite <- (round_inject_Z 0); apply round_monotone.
      change (inject_Z 0) with 0%Q; lra.
    - pose proof (round_bounds (x - 256)) as Hr.
      pose proof (Qfloor_le (x - 256)) as Hf.
      assert (Hlt : (inject_Z (Qfloor (x - 256)) < inject_Z 256)%Q)
        by (change (inject_Z 256) with 256%Q; lra).
      rewrite <- Zlt_Qlt in Hlt; lia. }
  split; [destruct Hcase as [(_ & -> & _) | (Hne & -> & _)]; lia|].
  split; [lia|].
  exact (symbol_rate_accepted_rates _ _ _ H).
Qed.

Lemma symbol_rate_encoder_range_witness :
  _symbol_rate_real_to_floating_point 600 = Ok (131, 4)
  /\ 0 <= 131 <= 255 /\ 1 <= 4 <= 16.
Proof.
  split; [reflexivity|].
  destruct (symbol_rate_encoder_range 600 131 4 eq_refl) as (Hm & He & _).
  split; assumption.
Defined.

(** X4: the rate the registers stand for after encoding differs from the
    requested rate by at most half a mantissa step,
    f_xosc * 2^exponent / 2^29. *)
Theorem symbol_rate_quantization_error (real : Q) (mantissa exponent : Z) :
  _symbol_rate_real_to_floating_point real = Ok (mantissa, exponent) ->
  (Qabs (_symbol_rate_floating_point_to_real mantissa exponent - real)
   <= _CRYSTAL_OSCILLATOR_FREQUENCY_HERTZ * 2 ^ exponent / 2 ^ 29)%Q.
Proof.
  intros H.
  destruct (symbol_rate_encoder_inversion _ _ _ H) as (Hpos & Hcase & He & Hm).
  cbv zeta in Hcase.
  set (e0 := Qlog2_floor
               (real / _CRYSTAL_OSCILLATOR_FREQUENCY_HERTZ * 2 ^ 20)) in *.
  assert (HP : (0 < 2 ^ e0)%Q) by (apply Qpower_0_lt; reflexivity).
  pose proof (round_within_half
                (real * 2 ^ 28 / _CRYSTAL_OSCILLATOR_FREQUENCY_HERTZ
                 / 2 ^ e0 - 256)) as Hround.
  assert (Hreal : (real == real * 2 ^ 28 / _CRYSTAL_OSCILLATOR_FREQUENCY_HERTZ
                           / 2 ^ e0
                           * (2 ^ e0 * _CRYSTAL_OSCILLATOR_FREQUENCY_HERTZ
                              / 2 ^ 28))%Q).
  { change _CRYSTAL_OSCILLATOR_FREQUENCY_HERTZ with 26000000%Q.
    field.
    intros H0; rewrite H0 in HP; discriminate HP. }
  set (x := (real * 2 ^ 28 / _CRYSTAL_OSCILLATOR_FREQUENCY_HERTZ / 2 ^ e0)%Q)
    in *.
  set (m0 := round (x - 256)) in *.
  apply Qabs_Qle_condition in Hround; destruct Hround as [Hlo Hhi].
  apply Qabs_Qle_condition.
  unfold _symbol_rate_floating_point_to_real.
  assert (Hc : (0 <= 2 ^ e0 * _CRYSTAL_OSCILLATOR_FREQUENCY_HERTZ / 2 ^ 28)%Q).
  { clear - HP; set (P := (2 ^ e0)%Q) in *; clearbody P.
    converter_constants; lra. }
  destruct Hcase as [(Hm0 & -> & ->) | (Hm0 & -> & ->)].
  - rewrite Qpower_plus by discriminate.
    change (2 ^ 1)%Q with 2%Q.
    rewrite Hm0 in Hlo, Hhi.
    change (inject_Z (256 + 0)) with 256%Q.
    change (inject_Z 256) with 256%Q in Hlo, Hhi.
    rewrite Hreal at 1 2.
    set (P := (2 ^ e0)%Q) in *; clearbody x P.
    clear - Hlo Hhi HP.
    converter_constants.
    assert (H1 : (0 <= (256 - (x - 256) + (1 # 2)) * P)%Q)
      by (apply Qmult_le_0_compat; lra).
    assert (H2 : (0 <= ((1 # 2) - (256 - (x - 256))) * P)%Q)
      by (apply Qmult_le_0_compat; lra).
    split; lra.
  - rewrite inject_Z_plus; change (inject_Z 256) with 256%Q.
    rewrite Hreal at 1 2.
    set (P := (2 ^ e0)%Q) in *.
    set (mq := inject_Z m0) in *; clearbody x P mq.
    clear - Hlo Hhi HP.
    converter_constants.
    assert (H1 : (0 <= (mq - (x - 256) + (1 # 2)) * P)%Q)
      by (apply Qmult_le_0_compat; lra).
    assert (H2 : (0 <= ((1 # 2) - (mq - (x - 256))) * P)%Q)
      by (apply Qmult_le_0_compat; lra).
    split; lra.
Qed.

Lemma symbol_rate_quantization_error_witness :
  (Qabs (_symbol_rate_floating_point_to_real 131 4 - 600)
   <= _CRYSTAL_OSCILLATOR_FREQUENCY_HERTZ * 2 ^ 4 / 2 ^ 29)%Q.
Proof.
  apply (symbol_rate_quantization_error 600 131 4); reflexivity.
Defined.

(** ** Received signal strength *)

(** X5: for an RSSI index that is a byte, the strength in dBm is half the
    index read as a signed 8-bit integer, minus 74; it lies between -138
    and -10.5 dBm. *)
Theorem rssi_dbm_signed_and_bounded (packet : _ReceivedPacket) :
  0 <= _rssi_index packet < 256 ->
  (rssi_dbm packet == inject_Z (signed_byte (_rssi_index packet)) / 2 - 74)%Q
  /\ -128 <= signed_byte (_rssi_index packet) <= 127
  /\ (-138 <= rssi_dbm packet)%Q
  /\ (rssi_dbm packet <= - (21 # 2))%Q.
Proof.
  intros Hindex.
  unfold rssi_dbm, signed_byte, _RSSI_OFFSET_dB.
  destruct (_rssi_index packet >=? 128) eqn:E.
  - apply Z.geb_le in E.
    assert (H1 : (inject_Z (-128) <= inject_Z (_rssi_index packet - 256))%Q)
      by (rewrite <- Zle_Qle; lia).
    assert (H2 : (inject_Z (_rssi_index packet - 256) <= inject_Z (-1))%Q)
      by (rewrite <- Zle_Qle; lia).
    set (q := inject_Z (_rssi_index packet - 256)) in *.
    change (inject_Z (-128)) with (-128)%Q in H1.
    change (inject_Z (-1)) with (-1)%Q in H2.
    split; [reflexivity | split; [lia|]].
    clearbody q; eval_Qinv; split; lra.
  - rewrite Z.geb_leb in E; apply Z.leb_gt in E.
    assert (H1 : (inject_Z 0 <= inject_Z (_rssi_index packet))%Q)
      by (rewrite <- Zle_Qle; lia).
    assert (H2 : (inject_Z (_rssi_index packet) <= inject_Z 127)%Q)
      by (rewrite <- Zle_Qle; lia).
    set (q := inject_Z (_rssi_index packet)) in *.
    change (inject_Z 0) with 0%Q in H1.
    change (inject_Z 127) with 127%Q in H2.
    split; [reflexivity | split; [lia|]].
    clearbody q; eval_Qinv; split; lra.
Qed.

Lemma rssi_dbm_signed_and_bounded_witness :
  (rssi_dbm (mk_ReceivedPacket [] 0xB0 true 0) == - 114)%Q
  /\ signed_byte 0xB0 = -80.
Proof.
  destruct (rssi_dbm_signed_and_bounded (mk_ReceivedPacket [] 0xB0 true 0))
    as (Hsigned & _); [cbn; lia|].
  split; [|reflexivity].
  rewrite Hsigned; reflexivity.
Defined.

(** ** Headers *)

Lemma bytes_check (f : Z -> bool) :
  forallb f (map Z.of_nat (seq 0 256)) = true ->
  forall b, 0 <= b < 256 -> f b = true.
Proof.
  intros H b Hb; rewrite forallb_forall in H; apply H.
  apply in_map_iff; exists (Z.to_nat b); split; [lia|].
  apply in_seq; lia.
Qed.

(** X6: a header byte determines both the six-bit address and the access
    mode it was built from, so transactions of different modes or
    addresses never share a header (a status register and the command
    strobe of the same address among them). *)
Theorem header_determines_address_and_mode (address flag : Z) :
  0 <= address < 64 ->
  In flag [_WRITE_SINGLE_BYTE; _WRITE_BURST; _READ_SINGLE_BYTE; _READ_BURST] ->
  Z.land (Z.lor address flag) 0x3F = address
  /\ Z.land (Z.lor address flag) 0xC0 = flag
  /\ forall address' flag',
      0 <= address' < 64 ->
      In flag' [_WRITE_SINGLE_BYTE; _WRITE_BURST;
                _READ_SINGLE_BYTE; _READ_BURST] ->
      Z.lor address flag = Z.lor address' flag' ->
      address = address' /\ flag = flag'.
Proof.
  assert (Hdecode : forall a f,
             0 <= a < 64 ->
             In f [_WRITE_SINGLE_BYTE; _WRITE_BURST;
                   _READ_SINGLE_BYTE; _READ_BURST] ->
             Z.land (Z.lor a f) 0x3F = a /\ Z.land (Z.lor a f) 0xC0 = f).
  { intros a f Ha Hf.
    pose proof
      (bytes_check
         (fun a =>
            forallb (fun f => (Z.land (Z.lor a f) 0x3F =? a)
                              && (Z.land (Z.lor a f) 0xC0 =? f))
              [0x00; 0x40; 0x80; 0xC0] || (64 <=? a))
         ltac:(vm_compute; reflexivity) a ltac:(lia)) as Hcheck.
    cbv beta in Hcheck.
    replace (64 <=? a) with false in Hcheck
      by (symmetry; apply Z.leb_gt; lia).
    rewrite orb_false_r, forallb_forall in Hcheck.
    specialize (Hcheck f Hf); apply andb_prop in Hcheck.
    destruct Hcheck as [H1 H2]; apply Z.eqb_eq in H1, H2; auto. }
  intros Ha Hf.
  destruct (Hdecode address flag Ha Hf) as [H1 H2].
  split; [exact H1 | split; [exact H2|]].
  intros address' flag' Ha' Hf' Heq.
  destruct (Hdecode address' flag' Ha' Hf') as [H1' H2'].
  rewrite <- Heq in H1', H2'; split; congruence.
Qed.

Lemma header_determines_address_and_mode_witness :
  Z.lor 0x35 _READ_BURST = 0xF5
  /\ Z.land 0xF5 0x3F = 0x35
  /\ Z.land 0xF5 0xC0 = _READ_BURST
  /\ Z.lor 0x35 _READ_BURST <> Z.lor 0x35 _WRITE_SINGLE_BYTE.
Proof.
  destruct (header_determines_address_and_mode 0x35 _READ_BURST)
    as (Haddress & Hmode & Hinjective);
    [lia | right; right; right; left; reflexivity |].
  split; [reflexivity | split; [exact Haddress | split; [exact Hmode|]]].
  intros Heq.
  destruct (Hinjective 0x35 _WRITE_SINGLE_BYTE) as [_ Hflag];
    [lia | left; reflexivity | exact Heq | discriminate Hflag].
Defined.

(** ** Register fields read back *)

Ltac literals :=
  repeat match goal with
         | |- context [bin ?s] =>
             let v := eval vm_compute in (bin s) in change (bin s) with v
         end.

Section SessionFacts.

Context {Dev : Type}.
Variable xfer : list Z -> Dev -> list Z * Dev.
Variable spi_open : Z -> Z -> M Dev unit.
Variable spi_set_max_speed_hz : Z -> M Dev unit.
Variable spi_close : M Dev unit.
Context {addresses : Addresses} {options : Options}.
Context {more_addresses : MoreAddresses} {more_options : MoreOptions}.

Lemma read_then_write_sent (register : Z) (f : Z -> Z) w b w1 :
  _read_single_byte xfer register w = (Ok b, w1) ->
  sent (snd (bind (_read_single_byte xfer register)
               (fun v => _write_burst xfer register [f v]) w))
  = sent w1 ++ [[Z.lor register 0x40; f b]].
Proof.
  intros Hread; rewrite (bind_run _ _ _ _ _ Hread).
  apply _write_burst_sent.
Qed.

(** X7: [_set_transceive_mode] writes PKTCTRL0 with the two format bits
    replaced, and whenever PKTCTRL0 reads as that byte
    [_get_transceive_mode] returns the mode that was set. *)
Theorem transceive_mode_set_then_get (mode : _TransceiveMode) (b : Z) :
  0 <= b < 256 ->
  let b' := Z.lor (Z.land b (Z.lnot 0x30))
              (Z.shiftl (_TransceiveMode_value mode) 4) in
  (forall w w1,
      _read_single_byte xfer PKTCTRL0 w = (Ok b, w1) ->
      sent (snd (_set_transceive_mode xfer mode w))
      = sent w1 ++ [[Z.lor PKTCTRL0 0x40; b']])
  /\ (forall w w1,
        _read_single_byte xfer PKTCTRL0 w = (Ok b', w1) ->
        _get_transceive_mode xfer w = (Ok mode, w1)).
Proof.
  intros Hb b'; split.
  - intros w w1 Hread.
    exact (read_then_write_sent PKTCTRL0
             (fun v => Z.lor (Z.land v (Z.lnot 0x30))
                         (Z.shiftl (_TransceiveMode_value mode) 4))
             w b w1 Hread).
  - intros w w1 Hread; unfold _get_transceive_mode.
    rewrite (bind_run _ _ _ _ _ Hread); literals.
    assert (Hfield : Z.land (Z.shiftr b' 4) 3 = _TransceiveMode_value mode).
    { subst b'; destruct mode; cbn [_TransceiveMode_value];
        (apply Z.eqb_eq;
         apply (bytes_check
                  (fun b => Z.land
                              (Z.shiftr (Z.lor (Z.land b (Z.lnot 0x30))
                                           (Z.shiftl _ 4)) 4) 3 =? _));
         [vm_compute; reflexivity | exact Hb]). }
    rewrite Hfield; destruct mode; reflexivity.
Qed.

(** X8: [set_sync_mode] writes MDMCFG2 with the two low bits replaced, and
    whenever MDMCFG2 reads as that byte [get_sync_mode] returns the mode
    that was set (a member of the enumeration, in two bits). *)
Theorem sync_mode_set_then_get (mode b : Z) :
  0 <= mode <= 3 ->
  In mode SyncMode_values ->
  0 <= b < 256 ->
  let b' := Z.lor (Z.land b 0xFC) mode in
  (forall w w1,
      _read_single_byte xfer MDMCFG2 w = (Ok b, w1) ->
      sent (snd (set_sync_mode xfer mode w))
      = sent w1 ++ [[Z.lor MDMCFG2 0x40; b']])
  /\ (forall w w1,
        _read_single_byte xfer MDMCFG2 w = (Ok b', w1) ->
        get_sync_mode xfer w = (Ok mode, w1)).
Proof.
  intros Hmode Hmember Hb b'; split.
  - intros w w1 Hread.
    exact (read_then_write_sent MDMCFG2
             (fun v => Z.lor (Z.land v 0xFC) mode) w b w1 Hread).
  - intros w w1 Hread; unfold get_sync_mode.
    rewrite (bind_run _ _ _ _ _ Hread); literals.
    assert (Hfield : Z.land b' 3 = mode).
    { subst b'.
      assert (H : mode = 0 \/ mode = 1 \/ mode = 2 \/ mode = 3) by lia.
      destruct H as [-> | [-> | [-> | ->]]];
        (apply Z.eqb_eq;
         apply (bytes_check
                  (fun b => Z.land (Z.lor (Z.land b 0xFC) _) 3 =? _));
         [vm_compute; reflexivity | exact Hb]). }
    rewrite Hfield; unfold enum_member.
    replace (existsb (Z.eqb mode) SyncMode_values) with true; [reflexivity|].
    symmetry; apply existsb_exists; exists mode; split;
      [exact Hmember | apply Z.eqb_refl].
Qed.

(** X9: [set_packet_length_mode] writes PKTCTRL0 with the two low bits
    replaced, and whenever PKTCTRL0 reads as that byte
    [get_packet_length_mode] returns the mode that was set. *)
Theorem packet_length_mode_set_then_get (mode b : Z) :
  0 <= mode <= 3 ->
  In mode PacketLengthMode_values ->
  0 <= b < 256 ->
  let b' := Z.lor (Z.land b 0xFC) mode in
  (forall w w1,
      _read_single_byte xfer PKTCTRL0 w = (Ok b, w1) ->
      sent (snd (set_packet_length_mode xfer mode w))
      = sent w1 ++ [[Z.lor PKTCTRL0 0x40; b']])
  /\ (forall w w1,
        _read_single_byte xfer PKTCTRL0 w = (Ok b', w1) ->
        get_packet_length_mode xfer w = (Ok mode, w1)).
Proof.
  intros Hmode Hmember Hb b'; split.
  - intros w w1 Hread.
    exact (read_then_write_sent PKTCTRL0
             (fun v => Z.lor (Z.land v 0xFC) mode) w b w1 Hread).
  - intros w w1 Hread; unfold get_packet_length_mode.
    rewrite (bind_run _ _ _ _ _ Hread); literals.
    assert (Hfield : Z.land b' 3 = mode).
    { subst b'.
      assert (H : mode = 0 \/ mode = 1 \/ mode = 2 \/ mode = 3) by lia.
      destruct H as [-> | [-> | [-> | ->]]];
        (apply Z.eqb_eq;
         apply (bytes_check
                  (fun b => Z.land (Z.lor (Z.land b 0xFC) _) 3 =? _));
         [vm_compute; reflexivity | exact Hb]). }
    cbv zeta; rewrite Hfield.
    replace (existsb (Z.eqb mode) PacketLengthMode_values) with true;
      [reflexivity|].
    symmetry; apply existsb_exists; exists mode; split;
      [exact Hmember | apply Z.eqb_refl].
Qed.



(** ** Filter bandwidth *)

Lemma assert_true_run {A} (c : M Dev A) (b : bool) w :
  b = true -> bind (assert b) (fun _ => c) w = c w.
Proof. intros ->; reflexivity. Qed.




(** ** Symbol rate registers *)

(** X13: for an exponent that fits four bits, [_set_symbol_rate_exponent]
    writes MDMCFG4 with the low four bits replaced and the upper four
    (the filter bandwidth) kept, and whenever MDMCFG4 reads as that byte
    [_get_symbol_rate_exponent] returns the exponent. *)
Theorem symbol_rate_exponent_set_then_get (exponent b : Z) :
  0 <= exponent <= 15 ->
  0 <= b < 256 ->
  let b' := Z.lor (Z.land b 0xF0) exponent in
  (forall w w1,
      _read_single_byte xfer MDMCFG4 w = (Ok b, w1) ->
      sent (snd (_set_symbol_rate_exponent xfer exponent w))
      = sent w1 ++ [[Z.lor MDMCFG4 0x40; b']])
  /\ same_outside 0x0F b b'
  /\ (forall w w1,
        _read_single_byte xfer MDMCFG4 w = (Ok b', w1) ->
        _get_symbol_rate_exponent xfer w = (Ok exponent, w1)).
Proof.
  intros He Hb b'.
  pose proof
    (bytes_check
       (fun b =>
          forallb
            (fun e =>
               (Z.land (Z.lor (Z.land b 0xF0) e) (Z.lnot 0x0F)
                =? Z.land b (Z.lnot 0x0F))
               && (Z.land (Z.lor (Z.land b 0xF0) e) 0x0F =? e))
            (map Z.of_nat (seq 0 16)))
       ltac:(vm_compute; reflexivity) b Hb) as H.
  cbv beta in H; rewrite forallb_forall in H.
  assert (Hin : In exponent (map Z.of_nat (seq 0 16))).
  { apply in_map_iff; exists (Z.to_nat exponent); split; [lia|].
    apply in_seq; lia. }
  specialize (H exponent Hin); apply andb_prop in H; destruct H as [H1 H2].
  apply Z.eqb_eq in H1, H2.
  split; [|split; [exact H1|]].
  - intros w w1 Hread.
    exact (read_then_write_sent MDMCFG4
             (fun v => Z.lor (Z.land v 0xF0) exponent) w b w1 Hread).
  - intros w w1 Hread; unfold _get_symbol_rate_exponent.
    rewrite (bind_run _ _ _ _ _ Hread); literals.
    subst b'; rewrite H2; reflexivity.
Qed.

(** X14: the encoder accepts rates whose exponent is 16, which does not
    fit the four-bit field: for such a rate [set_symbol_rate_baud] writes
    the mantissa and then MDMCFG4 with the exponent field zero and bit 4,
    the low bit of the filter-bandwidth mantissa, set; the exponent then
    reads back as 0. *)
Theorem symbol_rate_exponent_16_overflows_field
    (real : Q) (mantissa b : Z) w w1 w2 :
  _symbol_rate_real_to_floating_point real = Ok (mantissa, 16) ->
  0 <= b < 256 ->
  _set_symbol_rate_mantissa xfer mantissa w = (Ok tt, w1) ->
  _read_single_byte xfer MDMCFG4 w1 = (Ok b, w2) ->
  let b' := Z.lor (Z.land b 0xF0) 16 in
  sent w1 = sent w ++ [[Z.lor MDMCFG3 0x40; mantissa]]
  /\ sent (snd (set_symbol_rate_baud xfer real w))
     = sent w2 ++ [[Z.lor MDMCFG4 0x40; b']]
  /\ Z.land b' 0x0F = 0
  /\ Z.testbit b' 4 = true
  /\ (forall w' w'',
        _read_single_byte xfer MDMCFG4 w' = (Ok b', w'') ->
        _get_symbol_rate_exponent xfer w' = (Ok 0, w'')).
Proof.
  intros Hencode Hb Hmantissa Hread b'.
  pose proof
    (bytes_check
       (fun b => (Z.land (Z.lor (Z.land b 0xF0) 16) 0x0F =? 0)
                 && Z.testbit (Z.lor (Z.land b 0xF0) 16) 4)
       ltac:(vm_compute; reflexivity) b Hb) as H.
  cbv beta in H; apply andb_prop in H; destruct H as [H1 H2].
  apply Z.eqb_eq in H1.
  split; [|split; [|split; [exact H1 | split; [exact H2|]]]].
  - unfold _set_symbol_rate_mantissa in Hmantissa.
    rewrite <- (_write_burst_sent xfer MDMCFG3 [mantissa] w), Hmantissa.
    reflexivity.
  - unfold set_symbol_rate_baud, lift, bind at 1; rewrite Hencode.
    rewrite (bind_run _ _ _ _ _ Hmantissa).
    exact (read_then_write_sent MDMCFG4
             (fun v => Z.lor (Z.land v 0xF0) 16) w1 b w2 Hread).
  - intros w' w'' Hread'; unfold _get_symbol_rate_exponent.
    rewrite (bind_run _ _ _ _ _ Hread'); literals.
    subst b'; rewrite H1; reflexivity.
Qed.



(** ** Sync word *)

(** X16: [set_sync_word] refuses a word that is not two items long with a
    ValueError before anything is sent and otherwise sends one burst write
    to SYNC1; a sync word [get_sync_word] returns is the two bytes after
    the status byte of one three-byte burst read of SYNC1. *)
Theorem sync_word_is_two_bytes (sync_word : list Z) w :
  (len sync_word <> 2 ->
   set_sync_word xfer sync_word w
   = (Raise (ValueError "expected two bytes"), w))
  /\ (len sync_word = 2 ->
      sent (snd (set_sync_word xfer sync_word w))
      = sent w ++ [Z.lor SYNC1 0x40 :: sync_word])
  /\ (forall word w',
        get_sync_word xfer w = (Ok word, w') ->
        List.length word = 2%nat
        /\ Forall (fun v => 0 <= v < 256) word
        /\ word = skipn 1 (reply xfer [Z.lor SYNC1 0xC0; 0; 0] w)
        /\ sent w' = sent w ++ [[Z.lor SYNC1 0xC0; 0; 0]]).
Proof.
  split; [|split].
  - intros Hlen; unfold set_sync_word.
    replace (len sync_word =? 2) with false
      by (symmetry; apply Z.eqb_neq; exact Hlen).
    reflexivity.
  - intros Hlen; unfold set_sync_word.
    rewrite Hlen; cbn [Z.eqb Pos.eqb negb].
    apply _write_burst_sent.
  - intros word w' Hget; unfold get_sync_word in Hget.
    unfold bind in Hget; rewrite _read_burst_run in Hget.
    cbv zeta in Hget; change (repeat 0 (Z.to_nat 2)) with [0; 0] in Hget.
    destruct (len _ =? 2 + 1) eqn:Hlen; [|discriminate Hget].
    unfold bytes in Hget.
    destruct (forallb _ _) eqn:Hbytes; [|discriminate Hget].
    unfold ret in Hget.
    apply Z.eqb_eq in Hlen; unfold len in Hlen.
    assert (Hword : word = skipn 1 (reply xfer [Z.lor SYNC1 0xC0; 0; 0] w))
      by congruence.
    assert (Hw' : w' = after xfer [Z.lor SYNC1 0xC0; 0; 0] w) by congruence.
    clear Hget; subst word w'.
    split; [|split; [|split; reflexivity]].
    + rewrite length_skipn; lia.
    + apply Forall_forall; intros v Hv.
      rewrite forallb_forall in Hbytes; specialize (Hbytes v Hv).
      apply andb_prop in Hbytes; destruct Hbytes as [H1 H2].
      apply Z.leb_le in H1; apply Z.ltb_lt in H2; lia.
Qed.

(** ** Configuration register dump *)

Lemma enumerate_from_items (i : Z) (values : list Z) :
  map fst (enumerate_from i values)
  = map (fun k => i + Z.of_nat k) (seq 0 (List.length values))
  /\ map snd (enumerate_from i values) = values.
Proof.
  revert i; induction values as [|v values IH]; intros i; [split; reflexivity|].
  destruct (IH (i + 1)) as [IH1 IH2].
  cbn [enumerate_from map List.length seq fst snd]; split.
  - rewrite IH1, <- seq_shift, map_map; f_equal; [cbn; lia|].
    apply map_ext; intros k; lia.
  - rewrite IH2; reflexivity.
Qed.

Lemma configuration_register_dict_ok (start_register : Z)
    (items dict : list (Z * Z)) (w w' : World Dev) :
  configuration_register_dict start_register items w = (Ok dict, w') ->
  w' = w
  /\ map fst dict = map (fun item => start_register + fst item) items
  /\ map snd dict = map snd items
  /\ Forall (fun key => In key ConfigurationRegisterAddress_values)
       (map fst dict).
Proof.
  revert dict; induction items as [|[i v] items IH]; intros dict H.
  - injection H as <- <-; repeat split; constructor.
  - cbn [configuration_register_dict] in H.
    unfold bind at 1 in H; unfold enum_member in H.
    destruct (existsb _ _) eqn:Hmember; [|discriminate H].
    cbn [ret] in H; unfold bind in H.
    destruct (configuration_register_dict start_register items w)
      as [[rest | e] w''] eqn:Hrest; [|discriminate H].
    injection H as <- <-.
    destruct (IH rest eq_refl) as (-> & Hkeys & Hvalues & Hmembers).
    cbn [map fst snd]; rewrite Hkeys, Hvalues.
    repeat split; constructor; [|rewrite <- Hkeys; exact Hmembers].
    apply existsb_exists in Hmember; destruct Hmember as (k & Hin & Hk).
    apply Z.eqb_eq in Hk; subst k; exact Hin.
Qed.

(** X17: [get_configuration_register_values] refuses a start register
    above the end register before any transfer; a dictionary it returns
    comes from one burst read of end - start + 1 bytes, its keys are the
    addresses start, start + 1, ..., end in this order, all members of the
    enumeration, and its values are the bytes after the status byte. *)
Theorem configuration_register_values_keys
    (start_register end_register : Z) w :
  let request := Z.lor start_register 0xC0
                 :: repeat 0 (Z.to_nat (end_register - start_register + 1)) in
  (end_register < start_register ->
   get_configuration_register_values xfer start_register end_register w
   = (Raise AssertionError, w))
  /\ (forall dict w',
        get_configuration_register_values xfer start_register end_register w
        = (Ok dict, w') ->
        start_register <= end_register
        /\ sent w' = sent w ++ [request]
        /\ map fst dict
           = map (fun k => start_register + Z.of_nat k)
               (seq 0 (Z.to_nat (end_register - start_register + 1)))
        /\ map snd dict = skipn 1 (reply xfer request w)
        /\ Forall (fun key => In key ConfigurationRegisterAddress_values)
             (map fst dict)).
Proof.
  intros request; split.
  - intros Horder; unfold get_configuration_register_values.
    replace (start_register <=? end_register) with false
      by (symmetry; apply Z.leb_gt; exact Horder).
    reflexivity.
  - intros dict w' H; unfold get_configuration_register_values in H.
    destruct (start_register <=? end_register) eqn:Horder;
      [|discriminate H].
    apply Z.leb_le in Horder.
    rewrite assert_true_run in H by reflexivity.
    unfold bind in H; rewrite _read_burst_run in H; cbv zeta in H.
    fold request in H.
    destruct (len _ =? _) eqn:Hlen; [|discriminate H].
    apply configuration_register_dict_ok in H.
    destruct H as (-> & Hkeys & Hvalues & Hmembers).
    destruct (enumerate_from_items 0 (skipn 1 (reply xfer request w)))
      as [Hfst Hsnd].
    apply Z.eqb_eq in Hlen; unfold len in Hlen.
    split; [exact Horder | split; [reflexivity | split; [|split]]].
    + rewrite Hkeys, <- (map_map fst (fun i => start_register + i)), Hfst.
      rewrite map_map, length_skipn.
      replace (List.length (reply xfer request w) - 1)%nat
        with (Z.to_nat (end_register - start_register + 1)) by lia.
      reflexivity.
    + rewrite Hvalues; exact Hsnd.
    + exact Hmembers.
Qed.

(** ** Base frequency *)

Lemma big_endian_digits_3 (word : Z) :
  0 <= word < 2 ^ 24 ->
  big_endian_digits 3 word
  = [word / 65536; word / 256 mod 256; word mod 256].
Proof.
  intros Hword; cbn [big_endian_digits app].
  rewrite Z.div_div by lia; change (256 * 256) with 65536.
  rewrite (Z.mod_small (word / 65536)); [reflexivity|].
  split; [apply Z.div_pos; lia|].
  apply Z.div_lt_upper_bound; lia.
Qed.

(** X18: [set_base_frequency_hertz] raises OverflowError with nothing sent
    when the frequency divided by the step rounds to a word outside 24
    bits; otherwise it sends one burst write to FREQ2 of the word's three
    bytes, most significant first, and whenever those bytes are read back
    [get_base_frequency_hertz] returns the word times the step. *)
Theorem base_frequency_set_then_get (freq : Q) w :
  let word := round (freq / _FREQUENCY_CONTROL_WORD_HERTZ_FACTOR) in
  let control_word := [word / 65536; word / 256 mod 256; word mod 256] in
  (word < 0 \/ 2 ^ 24 <= word ->
   exists message,
     set_base_frequency_hertz xfer freq w = (Raise (OverflowError message), w))
  /\ (0 <= word < 2 ^ 24 ->
      sent (snd (set_base_frequency_hertz xfer freq w))
      = sent w ++ [Z.lor FREQ2 0x40 :: control_word]
      /\ forall w' w'',
          _get_base_frequency_control_word xfer w' = (Ok control_word, w'') ->
          get_base_frequency_hertz xfer w'
          = (Ok (inject_Z word * _FREQUENCY_CONTROL_WORD_HERTZ_FACTOR)%Q,
             w'')).
Proof.
  intros word control_word; split.
  - intros Hout.
    unfold set_base_frequency_hertz, _hertz_to_frequency_control_word,
      int_to_bytes_big, lift, bind.
    fold word; change (256 ^ Z.of_nat 3) with (2 ^ 24).
    destruct (word <? 0) eqn:Hneg; [eexists; reflexivity|].
    apply Z.ltb_ge in Hneg.
    replace (2 ^ 24 <=? word) with true by (symmetry; apply Z.leb_le; lia).
    eexists; reflexivity.
  - intros Hword.
    assert (Hencode : _hertz_to_frequency_control_word freq = Ok control_word).
    { unfold _hertz_to_frequency_control_word, int_to_bytes_big; fold word.
      change (256 ^ Z.of_nat 3) with (2 ^ 24).
      replace (word <? 0) with false by (symmetry; apply Z.ltb_ge; lia).
      replace (2 ^ 24 <=? word) with false by (symmetry; apply Z.leb_gt; lia).
      rewrite (big_endian_digits_3 word Hword); reflexivity. }
    split.
    + unfold set_base_frequency_hertz, lift, bind at 1; rewrite Hencode.
      apply _write_burst_sent.
    + intros w' w'' Hread; unfold get_base_frequency_hertz.
      rewrite (bind_run _ _ _ _ _ Hread).
      unfold lift, _frequency_control_word_to_hertz.
      destruct (int_from_bytes_to_bytes 3 word Hword)
        as (values & Hto & _ & Hfrom).
      unfold _hertz_to_frequency_control_word in Hencode; fold word in Hencode.
      rewrite Hencode in Hto; injection Hto as <-.
      rewrite Hfrom; reflexivity.
Qed.

(** ** Opening and closing the session *)

(** X19: once the bus is open and the reset strobe is answered,
    [__enter__] checks the chip before it configures it: a part number
    other than 0 raises ValueError right after the PARTNUM read, a version
    other than 0x14 right after the VERSION read, and [__enter__] returns
    normally only if the chip reported part number 0 and version 0x14. *)
Theorem enter_verifies_chip_identity (partnum : Z) w wa wb w0 w1 :
  spi_open 0 0 w = (Ok tt, wa) ->
  spi_set_max_speed_hz 55700 wa = (Ok tt, wb) ->
  _reset xfer wb = (Ok tt, w0) ->
  _read_status_register xfer PARTNUM w0 = (Ok partnum, w1) ->
  (partnum <> 0 ->
   __enter__ xfer spi_open spi_set_max_speed_hz w
   = (Raise (ValueError "unexpected chip part number"), w1))
  /\ (forall version w2,
        partnum = 0 ->
        _read_status_register xfer VERSION w1 = (Ok version, w2) ->
        version <> 0x14 ->
        __enter__ xfer spi_open spi_set_max_speed_hz w
        = (Raise (ValueError "unexpected chip version number"), w2))
  /\ (forall w',
        __enter__ xfer spi_open spi_set_max_speed_hz w = (Ok tt, w') ->
        partnum = 0
        /\ exists w2,
            _read_status_register xfer VERSION w1 = (Ok 0x14, w2)).
Proof.
  intros Hopen Hspeed Hreset Hpartnum.
  assert (Henter :
      __enter__ xfer spi_open spi_set_max_speed_hz w
      = (if negb (partnum =? _SUPPORTED_PARTNUM) then
           raise (ValueError "unexpected chip part number")
         else
           version <- _read_status_register xfer VERSION ;;
           if negb (version =? _SUPPORTED_VERSION) then
             raise (ValueError "unexpected chip version number")
           else
             _set_modulation_format xfer ASK_OOK ;;
             _set_power_amplifier_setting_index xfer 1 ;;
             _disable_data_whitening xfer ;;
             _write_burst xfer MCSM0 [bin "010100"] ;;
             marcstate <- get_main_radio_control_state_machine_state xfer ;;
             if negb (MainRadioControlStateMachineState_eqb marcstate IDLE)
             then raise (ValueError "expected marcstate idle")
             else ret tt) w1).
  { unfold __enter__.
    rewrite (bind_run _ _ _ _ _ Hopen), (bind_run _ _ _ _ _ Hspeed).
    rewrite (bind_run _ _ _ _ _ Hreset), (bind_run _ _ _ _ _ Hpartnum).
    reflexivity. }
  rewrite Henter; clear Henter; unfold _SUPPORTED_PARTNUM, _SUPPORTED_VERSION.
  split; [|split].
  - intros Hne.
    replace (partnum =? 0) with false by (symmetry; apply Z.eqb_neq; exact Hne).
    reflexivity.
  - intros version w2 -> Hversion Hne; cbn [Z.eqb negb].
    rewrite (bind_run _ _ _ _ _ Hversion).
    replace (version =? 0x14) with false
      by (symmetry; apply Z.eqb_neq; exact Hne).
    reflexivity.
  - intros w' H.
    destruct (partnum =? 0) eqn:Hp; [|discriminate H].
    apply Z.eqb_eq in Hp; split; [exact Hp|].
    cbn [negb] in H; unfold bind at 1 in H.
    destruct (_read_status_register xfer VERSION w1)
      as [[version | e] w2]; [|discriminate H].
    destruct (version =? 0x14) eqn:Hv; [|discriminate H].
    apply Z.eqb_eq in Hv; subst version.
    exists w2; reflexivity.
Qed.

(** X20: [with CC1101() as transceiver: body] closes the bus after the
    body whether the body returns or raises, and hands on the body's
    outcome when closing succeeds; when [__enter__] raises, neither the
    body nor the closing of the bus runs. *)
Theorem with_CC1101_closes_bus_after_body {A} (body : M Dev A) w :
  (forall e w1,
      __enter__ xfer spi_open spi_set_max_speed_hz w = (Raise e, w1) ->
      with_CC1101 xfer spi_open spi_set_max_speed_hz spi_close body w
      = (Raise e, w1))
  /\ (forall w1 outcome w2,
        __enter__ xfer spi_open spi_set_max_speed_hz w = (Ok tt, w1) ->
        body w1 = (outcome, w2) ->
        snd (with_CC1101 xfer spi_open spi_set_max_speed_hz spi_close body w)
        = snd (spi_close w2)
        /\ (forall w3,
              spi_close w2 = (Ok tt, w3) ->
              with_CC1101 xfer spi_open spi_set_max_speed_hz spi_close body w
              = (outcome, w3))).
Proof.
  split.
  - intros e w1 Henter; unfold with_CC1101.
    apply bind_raise; exact Henter.
  - intros w1 outcome w2 Henter Hbody; unfold with_CC1101.
    rewrite (bind_run _ _ _ _ _ Henter).
    unfold try_finally, __exit__, bind, ret; rewrite Hbody.
    split.
    + destruct (spi_close w2) as [[[] | e] w3]; reflexivity.
    + intros w3 Hclose; rewrite Hclose; reflexivity.
Qed.

(** ** What a successful run has sent *)


Lemma _read_single_byte_appends (register : Z) w (r : result Z) w1 :
  _read_single_byte xfer register w = (r, w1) ->
  sent w1 = sent w ++ [[Z.lor register 0x80; 0]].
Proof.
  rewrite _read_single_byte_run; cbv zeta; intros H.
  assert (Hw : w1 = after xfer [Z.lor register 0x80; 0] w) by congruence.
  subst w1; reflexivity.
Qed.



Lemma _write_burst_appends (register : Z) (values : list Z) w
    (r : result unit) w1 :
  _write_burst xfer register values w = (r, w1) ->
  sent w1 = sent w ++ [Z.lor register 0x40 :: values].
Proof.
  intros H; rewrite <- (_write_burst_sent xfer register values w), H.
  reflexivity.
Qed.



(** ** Symbol rate through the registers *)

Lemma exponent_field_reads_back (exponent b : Z) :
  0 <= exponent <= 15 ->
  0 <= b < 256 ->
  Z.land (Z.lor (Z.land b 0xF0) exponent) 0x0F = exponent.
Proof.
  intros He Hb.
  pose proof
    (bytes_check
       (fun b =>
          forallb (fun e => Z.land (Z.lor (Z.land b 0xF0) e) 0x0F =? e)
            (map Z.of_nat (seq 0 16)))
       ltac:(vm_compute; reflexivity) b Hb) as H.
  cbv beta in H; rewrite forallb_forall in H.
  apply Z.eqb_eq, H.
  apply in_map_iff; exists (Z.to_nat exponent); split; [lia|].
  apply in_seq; lia.
Qed.

(** X22: for a rate the encoder accepts with an exponent below 16,
    [set_symbol_rate_baud] sends the mantissa to MDMCFG3, reads MDMCFG4 and
    writes it back with the low four bits replaced by the exponent; when
    the two registers then read as written, [get_symbol_rate_baud] returns
    the rate the pair stands for. *)
Theorem symbol_rate_set_then_get
    (real : Q) (mantissa exponent b : Z) w w1 w2 :
  _symbol_rate_real_to_floating_point real = Ok (mantissa, exponent) ->
  exponent <= 15 ->
  0 <= b < 256 ->
  _set_symbol_rate_mantissa xfer mantissa w = (Ok tt, w1) ->
  _read_single_byte xfer MDMCFG4 w1 = (Ok b, w2) ->
  let b' := Z.lor (Z.land b 0xF0) exponent in
  sent (snd (set_symbol_rate_baud xfer real w))
  = sent w ++ [[Z.lor MDMCFG3 0x40; mantissa];
               [Z.lor MDMCFG4 0x80; 0];
               [Z.lor MDMCFG4 0x40; b']]
  /\ (forall v v1 v2,
        _read_single_byte xfer MDMCFG3 v = (Ok mantissa, v1) ->
        _read_single_byte xfer MDMCFG4 v1 = (Ok b', v2) ->
        get_symbol_rate_baud xfer v
        = (Ok (_symbol_rate_floating_point_to_real mantissa exponent), v2)).
Proof.
  intros Hencode He Hb Hmantissa Hread b'.
  destruct (symbol_rate_encoder_inversion _ _ _ Hencode) as (_ & _ & He1 & _).
  split.
  - unfold set_symbol_rate_baud, lift, bind at 1; rewrite Hencode.
    rewrite (bind_run _ _ _ _ _ Hmantissa).
    transitivity (sent w2 ++ [[Z.lor MDMCFG4 0x40; b']]);
      [exact (read_then_write_sent MDMCFG4
                (fun v => Z.lor (Z.land v 0xF0) exponent) w1 b w2 Hread)|].
    rewrite (_read_single_byte_appends _ _ _ _ Hread).
    unfold _set_symbol_rate_mantissa in Hmantissa.
    rewrite (_write_burst_appends _ _ _ _ _ Hmantissa).
    repeat rewrite <- app_assoc; reflexivity.
  - intros v v1 v2 Hm Hexp.
    unfold get_symbol_rate_baud, _get_symbol_rate_mantissa.
    rewrite (bind_run _ _ _ _ _ Hm).
    unfold _get_symbol_rate_exponent at 1.
    unfold bind at 1; rewrite (bind_run _ _ _ _ _ Hexp); literals.
    subst b'; rewrite exponent_field_reads_back by lia.
    reflexivity.
Qed.

End SessionFacts.

(** ** The session on a scripted bus *)

Lemma transceive_mode_set_then_get_witness :
  sent (snd (_set_transceive_mode (addresses := datasheet) scripted
               ASYNCHRONOUS_SERIAL (start [[0x0F; 0x45]; [0x0F; 0x0F]])))
  = [[0x88; 0]; [0x48; 0x75]]
  /\ _get_transceive_mode (addresses := datasheet) scripted
       (start [[0x0F; 0x75]])
     = (Ok ASYNCHRONOUS_SERIAL, mkWorld [] [[0x88; 0]]).
Proof.
  destruct (transceive_mode_set_then_get (addresses := datasheet) scripted
              ASYNCHRONOUS_SERIAL 0x45 ltac:(lia)) as [Hset Hget].
  split.
  - exact (Hset (start [[0x0F; 0x45]; [0x0F; 0x0F]])
             (mkWorld [[0x0F; 0x0F]] [[0x88; 0]]) eq_refl).
  - exact (Hget (start [[0x0F; 0x75]]) (mkWorld [] [[0x88; 0]]) eq_refl).
Defined.

Lemma sync_mode_set_then_get_witness :
  sent (snd (set_sync_mode (addresses := datasheet) scripted 2
               (start [[0x0F; 0x31]; [0x0F; 0x0F]])))
  = [[0x92; 0]; [0x52; 0x32]]
  /\ get_sync_mode (addresses := datasheet)
       (more_options := more_options_example) scripted
       (start [[0x0F; 0x32]])
     = (Ok 2, mkWorld [] [[0x92; 0]]).
Proof.
  destruct (sync_mode_set_then_get (addresses := datasheet)
              (more_options := more_options_example) scripted 2 0x31
              ltac:(lia) ltac:(cbn; lia) ltac:(lia)) as [Hset Hget].
  split.
  - exact (Hset (start [[0x0F; 0x31]; [0x0F; 0x0F]])
             (mkWorld [[0x0F; 0x0F]] [[0x92; 0]]) eq_refl).
  - exact (Hget (start [[0x0F; 0x32]]) (mkWorld [] [[0x92; 0]]) eq_refl).
Defined.

Lemma packet_length_mode_set_then_get_witness :
  sent (snd (set_packet_length_mode (addresses := datasheet) scripted 1
               (start [[0x0F; 0x44]; [0x0F; 0x0F]])))
  = [[0x88; 0]; [0x48; 0x45]]
  /\ get_packet_length_mode (addresses := datasheet)
       (options := length_config) scripted (start [[0x0F; 0x45]])
     = (Ok 1, mkWorld [] [[0x88; 0]]).
Proof.
  destruct (packet_length_mode_set_then_get (addresses := datasheet)
              (options := length_config) scripted 1 0x44
              ltac:(lia) ltac:(cbn; lia) ltac:(lia)) as [Hset Hget].
  split.
  - exact (Hset (start [[0x0F; 0x44]; [0x0F; 0x0F]])
             (mkWorld [[0x0F; 0x0F]] [[0x88; 0]]) eq_refl).
  - exact (Hget (start [[0x0F; 0x45]]) (mkWorld [] [[0x88; 0]]) eq_refl).
Defined.




Lemma symbol_rate_exponent_set_then_get_witness :
  sent (snd (_set_symbol_rate_exponent (addresses := datasheet) scripted 9
               (start [[0x0F; 0x8C]; [0x0F; 0x0F]])))
  = [[0x90; 0]; [0x50; 0x89]]
  /\ _get_symbol_rate_exponent (addresses := datasheet) scripted
       (start [[0x0F; 0x89]])
     = (Ok 9, mkWorld [] [[0x90; 0]]).
Proof.
  destruct (symbol_rate_exponent_set_then_get (addresses := datasheet)
              scripted 9 0x8C ltac:(lia) ltac:(lia)) as (Hset & _ & Hget).
  split.
  - exact (Hset (start [[0x0F; 0x8C]; [0x0F; 0x0F]])
             (mkWorld [[0x0F; 0x0F]] [[0x90; 0]]) eq_refl).
  - exact (Hget (start [[0x0F; 0x89]]) (mkWorld [] [[0x90; 0]]) eq_refl).
Defined.

(** 2 MBaud has exponent 16: the byte written over 0x8C is 0x90. *)
Lemma symbol_rate_exponent_16_overflows_field_witness :
  _symbol_rate_real_to_floating_point 2e6 = Ok (59, 16)
  /\ sent (snd (set_symbol_rate_baud (addresses := datasheet)
                  (more_addresses := more_datasheet) scripted 2e6
                  (start [[0x0F; 0x0F]; [0x0F; 0x8C]; [0x0F; 0x0F]])))
     = [[0x51; 59]; [0x90; 0]; [0x50; 0x90]]
  /\ _get_symbol_rate_exponent (addresses := datasheet) scripted
       (start [[0x0F; 0x90]])
     = (Ok 0, mkWorld [] [[0x90; 0]]).
Proof.
  assert (Hencode : _symbol_rate_real_to_floating_point 2e6 = Ok (59, 16))
    by (vm_compute; reflexivity).
  destruct (symbol_rate_exponent_16_overflows_field
              (addresses := datasheet) (more_addresses := more_datasheet)
              scripted 2e6 59 0x8C
              (start [[0x0F; 0x0F]; [0x0F; 0x8C]; [0x0F; 0x0F]])
              (mkWorld [[0x0F; 0x8C]; [0x0F; 0x0F]] [[0x51; 59]])
              (mkWorld [[0x0F; 0x0F]] [[0x51; 59]; [0x90; 0]])
              Hencode ltac:(lia) eq_refl eq_refl)
    as (_ & Hsent & _ & _ & Hget).
  split; [exact Hencode | split].
  - exact Hsent.
  - exact (Hget (start [[0x0F; 0x90]]) (mkWorld [] [[0x90; 0]]) eq_refl).
Defined.


Lemma sync_word_is_two_bytes_witness :
  set_sync_word (more_addresses := more_datasheet) scripted [0xD3; 0x91; 0]
    (start [])
  = (Raise (ValueError "expected two bytes"), start [])
  /\ sent (snd (set_sync_word (more_addresses := more_datasheet) scripted
                  [0xD3; 0x91] (start [])))
     = [[0x44; 0xD3; 0x91]].
Proof.
  split.
  - apply (proj1 (sync_word_is_two_bytes (more_addresses := more_datasheet)
                    scripted [0xD3; 0x91; 0] (start []))).
    discriminate.
  - apply (proj1 (proj2 (sync_word_is_two_bytes
                           (more_addresses := more_datasheet)
                           scripted [0xD3; 0x91] (start [])))).
    reflexivity.
Defined.

Lemma configuration_register_values_keys_witness :
  get_configuration_register_values (more_addresses := more_datasheet)
    scripted 0x0D 0x0F (start [[0x0F; 0x10; 0xB0; 0x71]])
  = (Ok [(0x0D, 0x10); (0x0E, 0xB0); (0x0F, 0x71)],
     mkWorld [] [[0xCD; 0; 0; 0]])
  /\ get_configuration_register_values (more_addresses := more_datasheet)
       scripted 0x0F 0x0D (start [[0x0F; 0x10; 0xB0; 0x71]])
     = (Raise AssertionError, start [[0x0F; 0x10; 0xB0; 0x71]]).
Proof.
  split; [reflexivity|].
  apply (proj1 (configuration_register_values_keys
                  (more_addresses := more_datasheet) scripted 0x0F 0x0D
                  (start [[0x0F; 0x10; 0xB0; 0x71]]))).
  lia.
Defined.

Lemma base_frequency_set_then_get_witness :
  round (433.92e6 / _FREQUENCY_CONTROL_WORD_HERTZ_FACTOR) = 0x10B071
  /\ sent (snd (set_base_frequency_hertz (more_addresses := more_datasheet)
                  scripted 433.92e6 (start [])))
     = [[0x4D; 0x10; 0xB0; 0x71]]
  /\ get_base_frequency_hertz (more_addresses := more_datasheet) scripted
       (start [[0x0F; 0x10; 0xB0; 0x71]])
     = (Ok (inject_Z 0x10B071 * _FREQUENCY_CONTROL_WORD_HERTZ_FACTOR)%Q,
        mkWorld [] [[0xCD; 0; 0; 0]]).
Proof.
  assert (Hword : round (433.92e6 / _FREQUENCY_CONTROL_WORD_HERTZ_FACTOR)
                  = 0x10B071) by (vm_compute; reflexivity).
  destruct (proj2 (base_frequency_set_then_get
                     (more_addresses := more_datasheet) scripted 433.92e6
                     (start [])))
    as [Hset Hget]; [rewrite Hword; lia|].
  rewrite Hword in Hset, Hget.
  split; [exact Hword | split].
  - exact Hset.
  - exact (Hget (start [[0x0F; 0x10; 0xB0; 0x71]])
             (mkWorld [] [[0xCD; 0; 0; 0]]) eq_refl).
Defined.

(** A chip that answers the reset strobe and reports part number 0x80: the
    session is refused after the strobe and one status read. *)
Lemma enter_verifies_chip_identity_witness :
  __enter__ (addresses := datasheet) (more_addresses := more_datasheet)
    (more_options := more_options_example) scripted
    (fun _ _ => ret tt) (fun _ => ret tt)
    (start [[0x0F]; [0x0F; 0x80]; [0x0F; 0x14]])
  = (Raise (ValueError "unexpected chip part number"),
     mkWorld [[0x0F; 0x14]] [[0x30]; [0xF0; 0]]).
Proof.
  apply (proj1 (enter_verifies_chip_identity
                  (addresses := datasheet) (more_addresses := more_datasheet)
                  (more_options := more_options_example) scripted
                  (fun _ _ => ret tt) (fun _ => ret tt) 0x80
                  (start [[0x0F]; [0x0F; 0x80]; [0x0F; 0x14]])
                  (start [[0x0F]; [0x0F; 0x80]; [0x0F; 0x14]])
                  (start [[0x0F]; [0x0F; 0x80]; [0x0F; 0x14]])
                  (mkWorld [[0x0F; 0x80]; [0x0F; 0x14]] [[0x30]])
                  (mkWorld [[0x0F; 0x14]] [[0x30]; [0xF0; 0]])
                  eq_refl eq_refl eq_refl eq_refl)).
  discriminate.
Defined.

(** The same chip under [with]: the body does not run and the bus is not
    closed (the closing would have raised). *)
Lemma with_CC1101_closes_bus_after_body_witness :
  with_CC1101 (addresses := datasheet) (more_addresses := more_datasheet)
    (more_options := more_options_example) scripted
    (fun _ _ => ret tt) (fun _ => ret tt)
    (raise (Exception "closed"))
    (_command_strobe scripted 0x36)
    (start [[0x0F]; [0x0F; 0x80]; [0x0F; 0x14]])
  = (Raise (ValueError "unexpected chip part number"),
     mkWorld [[0x0F; 0x14]] [[0x30]; [0xF0; 0]]).
Proof.
  apply (proj1 (with_CC1101_closes_bus_after_body
                  (addresses := datasheet) (more_addresses := more_datasheet)
                  (more_options := more_options_example) scripted
                  (fun _ _ => ret tt) (fun _ => ret tt)
                  (raise (Exception "closed"))
                  (_command_strobe scripted 0x36)
                  (start [[0x0F]; [0x0F; 0x80]; [0x0F; 0x14]]))).
  reflexivity.
Defined.


(** 600 Baud is mantissa 131, exponent 4. *)
Lemma symbol_rate_set_then_get_witness :
  sent (snd (set_symbol_rate_baud (addresses := datasheet)
               (more_addresses := more_datasheet) scripted 600
               (start [[0x0F; 0x0F]; [0x0F; 0x8C]; [0x0F; 0x0F]])))
  = [[0x51; 131]; [0x90; 0]; [0x50; 0x84]]
  /\ get_symbol_rate_baud (addresses := datasheet)
       (more_addresses := more_datasheet) scripted
       (start [[0x0F; 131]; [0x0F; 0x84]])
     = (Ok (_symbol_rate_floating_point_to_real 131 4),
        mkWorld [] [[0x91; 0]; [0x90; 0]]).
Proof.
  destruct (symbol_rate_set_then_get
              (addresses := datasheet) (more_addresses := more_datasheet)
              scripted 600 131 4 0x8C
              (start [[0x0F; 0x0F]; [0x0F; 0x8C]; [0x0F; 0x0F]])
              (mkWorld [[0x0F; 0x8C]; [0x0F; 0x0F]] [[0x51; 131]])
              (mkWorld [[0x0F; 0x0F]] [[0x51; 131]; [0x90; 0]])
              eq_refl ltac:(lia) ltac:(lia) eq_refl eq_refl)
    as [Hset Hget].
  split.
  - exact Hset.
  - exact (Hget (start [[0x0F; 131]; [0x0F; 0x84]])
             (mkWorld [[0x0F; 0x84]] [[0x91; 0]])
             (mkWorld [] [[0x91; 0]; [0x90; 0]]) eq_refl eq_refl).
Defined.
